(** * The gasless relay path of the vendored SDK [Module] class

    A shallow embedding of [Module.sendContractTransaction],
    [Module.sendGaslessTransaction], [Module.sendAndWaitForTransaction],
    [Module.getCallOverrides] and the helpers they call
    (src/scripts/9-setup-vote.js, the part after the document separator,
    which is the SDK's modules/module.ts), and the properties the
    specification states about them.

    The code is asynchronous glue around injected collaborators (signer,
    provider, contract binding, relay function).  Every [await] is a
    sequence point of one thread of control, so the embedding is a state
    and error monad: the state is the process-wide nonce cache together
    with the log of the calls made to the collaborators, an exception is
    an [error] result, and the state written before a throw is kept. *)

From Stdlib Require Import ZArith NArith String Ascii List.
From Stdlib Require Import HexadecimalString Sorted.
From stdpp Require Import base option gmap strings pretty.
From Equations Require Import Equations.

Local Open Scope Z_scope.
Local Open Scope string_scope.

(** ** JavaScript values as far as the relay path looks at them *)

(** An element of the [any[]] argument list of a contract call;
    [ArgUndefined] is what indexing past the end of the list gives. *)
Inductive Arg :=
  | ArgAddress (a : string)
  | ArgNumber (n : Z)
  | ArgBytes (b : string)
  | ArgList (l : list string)
  | ArgUndefined.

(** A thrown exception.  [InvariantError] is what [invariant] throws;
    every other exception comes out of a collaborator and is passed on
    as it is. *)
Inductive error :=
  | InvariantError (message : string)
  | Rejected (who : string) (why : string).

Inductive result (A : Type) :=
  | Ok (a : A)
  | Throw (e : error).
Arguments Ok {A} a.
Arguments Throw {A} e.

(** [String.prototype.toLowerCase] on the ASCII range (addresses are
    ["0x"] followed by hexadecimal digits). *)
Definition lower_ascii (c : ascii) : ascii :=
  let n := N_of_ascii c in
  if ((65 <=? n) && (n <=? 90))%N then ascii_of_N (n + 32) else c.

Fixpoint toLowerCase (s : string) : string :=
  match s with
  | EmptyString => EmptyString
  | String c s' => String (lower_ascii c) (toLowerCase s')
  end.

(** [s.substring(n)]: [s] without its first [n] characters. *)
Fixpoint substring_from (n : nat) (s : string) : string :=
  match n, s with
  | O, _ => s
  | S n', String _ s' => substring_from n' s'
  | S _, EmptyString => EmptyString
  end.

(** [Number.prototype.toString(16)] on an integer: lower-case
    hexadecimal digits, no prefix, no padding, a minus sign when
    negative. *)
Definition toString16 (v : Z) : string :=
  match v with
  | Z0 => "0"
  | Zpos p => NilZero.string_of_uint (N.to_hex_uint (Npos p))
  | Zneg p => "-" +:+ NilZero.string_of_uint (N.to_hex_uint (Npos p))
  end.

(** [BigNumber.from(x).toString()]: the decimal rendering. *)
Definition BigNumber_toString (x : Z) : string := pretty x.

(** ** Messages and the signing domain *)

Record ForwardRequestMessage := {
  fr_from : string;
  fr_to : string;
  fr_value : string;
  fr_gas : string;
  fr_nonce : string;
  fr_data : string
}.

(** What eth-permit's [signERC2612Permit] resolves to: the permit
    message together with the split signature. *)
Record ERC2612Permit := {
  permit_owner : string;
  permit_spender : string;
  pm_value : string;
  pm_nonce : string;
  permit_deadline : string;
  permit_v : Z;
  permit_r : string;
  permit_s : string
}.

(** [ForwardRequestMessage | PermitRequestMessage]; the second is the
    object [{ to: contract.address, ...permit }] (the permit has no [to]
    field of its own to override the first). *)
Inductive Message :=
  | ForwardRequestMsg (m : ForwardRequestMessage)
  | PermitRequestMsg (to : string) (permit : ERC2612Permit).

Record Domain := {
  name : string;
  version : string;
  chainId : Z;
  verifyingContract : string
}.

(** The EIP-712 type table: type name and its (field, type) list. *)
Definition TypedDataTypes := list (string * list (string * string)).

Record CallOverrides := {
  ov_value : option Z;
  ov_gasPrice : option Z
}.

(** The empty object [{}]. *)
Definition no_overrides : CallOverrides :=
  {| ov_value := None; ov_gasPrice := None |}.

Record TransactionReceipt := {
  status : Z;
  transactionHash : string;
  blockNumber : Z
}.

(** ** The collaborators *)

(** The wrapped external provider of a [Web3Provider]. *)
Record ExternalProvider := {
  isWalletConnect : option bool
}.

(** [signer.provider], seen as [Web3Provider] and as [JsonRpcProvider]. *)
Record SignerProvider := {
  sp_provider : option ExternalProvider;
  send : string -> list string -> result string
}.

Record Signer := {
  _isSigner : bool;
  getAddress : result string;
  sg_provider : option SignerProvider;
  _signTypedData : Domain -> TypedDataTypes -> Message -> result string
}.

(** The chain provider of the read-only contract.  [fw_getNonce] is the
    [getNonce(from)] view of the forwarder contract deployed at the given
    address, read through this provider. *)
Record Provider := {
  getNetwork : result Z;
  waitForTransaction : string -> result TransactionReceipt;
  fw_getNonce : string -> string -> result Z
}.

(** What [contract.functions[fn](...)] resolves to, with its optional
    [wait] method.  [tx_self] is the object itself, seen as the value
    [sendAndWaitForTransaction] returns when there is no [wait]. *)
Record ContractTransaction := {
  tx_hash : string;
  tx_self : TransactionReceipt;
  wait : option (result TransactionReceipt)
}.

Record Interface := {
  functions_has : string -> bool;
  encodeFunctionData : string -> list Arg -> result string
}.

Record BaseContract := {
  ct_address : string;
  ct_provider : option Provider;
  interface : Interface;
  estimateGas : string -> list Arg -> result Z;
  functions : string -> list Arg -> CallOverrides -> result ContractTransaction
}.

(** [Forwarder__factory.connect(forwarderAddress, provider)]. *)
Record Forwarder := {
  fwd_address : string;
  fwd_provider : Provider
}.

Definition Forwarder__factory_connect (a : string) (p : Provider) : Forwarder :=
  {| fwd_address := a; fwd_provider := p |}.

Record ISDKOptions := {
  transactionRelayerUrl : option string;
  transactionRelayerForwarderAddress : string;
  transactionRelayerSendFunction : Message -> string -> result string;
  gasSpeed : string;
  maxGasPriceInGwei : Z
}.

(** The fields of a [Module] instance the transaction paths read. *)
Record SdkModule := {
  address : string;
  options : ISDKOptions;
  _signer : option Signer;
  contract : BaseContract;
  readOnlyContract : BaseContract
}.

(** Library functions the module imports: ethers' typed-data encoder and
    unit parser, [JSON.stringify], eth-permit's permit signer, the
    gas-price oracle of common/gas-price, and the [ForwardRequest] type
    list of common/forwarder.  [GasPrice] is the JavaScript number the
    oracle yields. *)
Class Externals := {
  Payload : Type;
  getPayload : Domain -> TypedDataTypes -> Message -> Payload;
  JSON_stringify : Payload -> string;
  signERC2612Permit : Signer -> string -> string -> Arg -> Arg -> result ERC2612Permit;
  GasPrice : Type;
  gasPrice_truthy : GasPrice -> bool;
  parseUnits_gwei : GasPrice -> Z;
  getGasPriceForChain : Z -> string -> Z -> result (option GasPrice);
  ForwardRequest : list (string * string)
}.

(** ** The process state and the monad *)

(** A call made to a collaborator, as logged. *)
Inductive Event :=
  | EvGetNetwork
  | EvGetAddress
  | EvGasPriceOracle (chain : Z) (speed : string) (cap : Z)
  | EvEstimateGas (target fn : string) (args : list Arg)
  | EvForwarderGetNonce (forwarder from : string)
  | EvSignPermit (token owner : string) (spender amount : Arg)
  | EvRpcSend (method : string) (params : list string)
  | EvSignTypedData (domain : Domain) (types : TypedDataTypes) (message : Message)
  | EvRelaySend (message : Message) (signature : string)
  | EvWaitForTransaction (txHash : string)
  | EvContractSend (target fn : string) (args : list Arg) (overrides : CallOverrides)
  | EvTxWait (txHash : string).

Record World := {
  _nonces : gmap string Z;
  trace : list Event
}.

Definition M (A : Type) : Type := World -> result A * World.

Global Instance M_ret : MRet M := fun A a w => (Ok a, w).

Global Instance M_bind : MBind M := fun A B f m w =>
  match m w with
  | (Ok a, w') => f a w'
  | (Throw e, w') => (Throw e, w')
  end.

Global Instance M_throw : MThrow error M := fun A e w => (Throw e, w).

(** Log [ev], then resolve or reject as the collaborator answers. *)
Definition call {A} (ev : Event) (answer : result A) : M A := fun w =>
  (answer, {| _nonces := _nonces w; trace := trace w ++ [ev] |}).

(** A synchronous library call that may throw; nothing is logged. *)
Definition lift {A} (answer : result A) : M A := fun w => (answer, w).

(** [_nonces[from]] read, and [_nonces[from] = n]. *)
Definition readNonce (from : string) : M (option Z) := fun w =>
  (Ok (_nonces w !! from), w).

Definition writeNonce (from : string) (n : Z) : M unit := fun w =>
  (Ok tt, {| _nonces := <[from := n]> (_nonces w); trace := trace w |}).

(** ** The module's methods *)

Section Module.
Context `{Ext : Externals}.

(** Modelled from the spec: [invariant] of common/invariant is not among
    the sources.  The spec's InvariantError is "a required precondition
    (signer present, provider present) is missing -- fatal, surfaced
    immediately", and the module's own doc comments say of its
    [invariant(...)] calls that they throw an InvariantError.  The checked
    value is handed back, as the TypeScript assertion narrows it. *)
Definition invariant {A} (condition : option A) (message : string) : M A :=
  match condition with
  | Some a => mret a
  | None => mthrow (InvariantError message)
  end.

(** Modelled from the spec: [getAndIncrementNonce] of common/forwarder is
    not among the sources.  The spec describes it as the per-sender nonce
    tracked against the forwarder contract, [getNonce(forwarderAddress,
    address)], read and then incremented client-side, with no on-chain
    reservation, "to avoid reuse within the same process before the
    on-chain nonce advances": the value handed out is the one cached for
    the sender when there is one and the forwarder's otherwise, and the
    cache then holds that value plus one. *)
Definition getAndIncrementNonce (forwarder : Forwarder) (from : string) : M Z :=
  cached ← readNonce from;
  nonce ← match cached with
          | Some n => mret n
          | None =>
              call (EvForwarderGetNonce (fwd_address forwarder) from)
                   (fw_getNonce (fwd_provider forwarder) (fwd_address forwarder) from)
          end;
  writeNonce from (nonce + 1);;
  mret nonce.

Variable this : SdkModule.

Definition getSigner : option Signer :=
  match _signer this with
  | Some signer => if _isSigner signer then Some signer else None
  | None => None
  end.

Definition getSignerAddress : M string :=
  signer ← invariant getSigner "Cannot get signer address without valid signer";
  call EvGetAddress (getAddress signer).

Definition getProvider : M (option Provider) :=
  mret (ct_provider (readOnlyContract this)).

Definition getChainID : M Z :=
  provider ← getProvider;
  provider ← invariant provider "getChainID() -- No Provider";
  call EvGetNetwork (getNetwork provider).

Definition getCallOverrides : M CallOverrides :=
  chainId ← getChainID;
  let speed := gasSpeed (options this) in
  let maxGasPrice := maxGasPriceInGwei (options this) in
  gasPriceChain ← call (EvGasPriceOracle chainId speed maxGasPrice)
                       (getGasPriceForChain chainId speed maxGasPrice);
  match gasPriceChain with
  | Some price =>
      if gasPrice_truthy price
      then mret {| ov_value := None; ov_gasPrice := Some (parseUnits_gwei price) |}
      else mret no_overrides
  | None => mret no_overrides
  end.

Definition sendAndWaitForTransaction (contract : BaseContract) (fn : string)
    (args : list Arg) (callOverrides : CallOverrides) : M TransactionReceipt :=
  tx ← call (EvContractSend (ct_address contract) fn args callOverrides)
            (functions contract fn args callOverrides);
  match wait tx with
  | Some receipt => call (EvTxWait (tx_hash tx)) receipt
  | None => mret (tx_self tx)
  end.

(** The forwarded gas limit: twice the estimate, 500000 when the estimate
    is below 25000. *)
Definition forwardedGas (gasEstimate : Z) : Z :=
  let gas := gasEstimate * 2 in
  if (gasEstimate <? 25000)%Z then 500000 else gas.

(** The test that selects the permit flow. *)
Definition usesPermit (contract : BaseContract) (fn : string) (args : list Arg) : bool :=
  String.eqb fn "approve"
  && Nat.eqb (length args) 2
  && functions_has (interface contract) "approve(address,uint256)"
  && functions_has (interface contract)
       "permit(address,address,uint256,uint256,uint8,bytes32,bytes32)".

(** [signer?.provider?.provider?.isWalletConnect], as a condition. *)
Definition walletConnect (signer : Signer) : bool :=
  match sg_provider signer with
  | Some web3 =>
      match sp_provider web3 with
      | Some external => default false (isWalletConnect external)
      | None => false
      end
  | None => false
  end.

Definition sendGaslessTransaction (contract : BaseContract) (fn : string)
    (args : list Arg) (callOverrides : CallOverrides) : M TransactionReceipt :=
  signer ← invariant getSigner
             "Cannot execute gasless transaction without valid signer";
  provider ← getProvider;
  provider ← invariant provider "no provider to execute transaction";
  chainId ← getChainID;
  from ← getSignerAddress;
  let to := address this in
  let value := default 0 (ov_value callOverrides) in
  data ← lift (encodeFunctionData (interface contract) fn args);
  let forwarderAddress := transactionRelayerForwarderAddress (options this) in
  let forwarder := Forwarder__factory_connect forwarderAddress provider in
  gasEstimate ← call (EvEstimateGas (ct_address contract) fn args)
                     (estimateGas contract fn args);
  let gas := forwardedGas gasEstimate in
  nonce ← getAndIncrementNonce forwarder from;
  let domain := {| name := "GSNv2 Forwarder";
                   version := "0.0.1";
                   chainId := chainId;
                   verifyingContract := forwarderAddress |} in
  let types : TypedDataTypes := [("ForwardRequest", ForwardRequest)] in
  let message := ForwardRequestMsg
                   {| fr_from := from;
                      fr_to := to;
                      fr_value := BigNumber_toString value;
                      fr_gas := BigNumber_toString gas;
                      fr_nonce := BigNumber_toString nonce;
                      fr_data := data |} in
  '(message, signature) ←
    (if usesPermit contract fn args then
       let spender := nth 0 args ArgUndefined in
       let amount := nth 1 args ArgUndefined in
       permit ← call (EvSignPermit (ct_address contract) from spender amount)
                     (signERC2612Permit signer (ct_address contract) from spender amount);
       mret (PermitRequestMsg (ct_address contract) permit,
             permit_r permit +:+ substring_from 2 (permit_s permit)
               +:+ toString16 (permit_v permit))
     else if walletConnect signer then
       let payload := getPayload domain types message in
       signature ← call (EvRpcSend "eth_signTypedData"
                                   [toLowerCase from; JSON_stringify payload])
                        (match sg_provider signer with
                         | Some web3 =>
                             send web3 "eth_signTypedData"
                                  [toLowerCase from; JSON_stringify payload]
                         | None => Throw (Rejected "signer" "no provider")
                         end);
       mret (message, signature)
     else
       signature ← call (EvSignTypedData domain types message)
                        (_signTypedData signer domain types message);
       mret (message, signature));
  txHash ← call (EvRelaySend message signature)
                (transactionRelayerSendFunction (options this) message signature);
  call (EvWaitForTransaction txHash) (waitForTransaction provider txHash).

(** [this.options.transactionRelayerUrl] as a condition: set and not the
    empty string. *)
Definition relayConfigured : bool :=
  match transactionRelayerUrl (options this) with
  | Some url => negb (String.eqb url "")
  | None => false
  end.

Definition sendContractTransaction (contract : BaseContract) (fn : string)
    (args : list Arg) (callOverrides : option CallOverrides) : M TransactionReceipt :=
  callOverrides ← match callOverrides with
                  | Some given => mret given
                  | None => getCallOverrides
                  end;
  if relayConfigured
  then sendGaslessTransaction contract fn args callOverrides
  else sendAndWaitForTransaction contract fn args callOverrides.

Definition sendTransaction (fn : string) (args : list Arg)
    (callOverrides : option CallOverrides) : M TransactionReceipt :=
  sendContractTransaction (contract this) fn args callOverrides.

End Module.

(** ** Observing a run *)

(** The world after the calls [evs] were made. *)
Definition logged (w : World) (evs : list Event) : World :=
  {| _nonces := _nonces w; trace := trace w ++ evs |}.

(** The calls made since [w], when [w'] is a later world. *)
Definition since (w w' : World) : list Event :=
  drop (length (trace w)) (trace w').

(** What was handed to the relay-dispatch function. *)
Definition relayed (evs : list Event) : list (Message * string) :=
  omap (fun ev => match ev with
                  | EvRelaySend message signature => Some (message, signature)
                  | _ => None
                  end) evs.

(** The forward requests among them. *)
Definition forwardRequests (evs : list Event) : list ForwardRequestMessage :=
  omap (fun ms => match fst ms with
                  | ForwardRequestMsg request => Some request
                  | PermitRequestMsg _ _ => None
                  end) (relayed evs).

(** The calls that ask for a signature. *)
Definition signings (evs : list Event) : list Event :=
  List.filter (fun ev => match ev with
                         | EvSignPermit _ _ _ _ | EvRpcSend _ _
                         | EvSignTypedData _ _ _ => true
                         | _ => false
                         end) evs.

(** What the nonce source hands out in world [w]: the cached value, or
    the forwarder's when nothing is cached for [from]. *)
Definition nonceSource (forwarder : Forwarder) (from : string) (w : World) : result Z :=
  match _nonces w !! from with
  | Some n => Ok n
  | None => fw_getNonce (fwd_provider forwarder) (fwd_address forwarder) from
  end.

(** The forwarder read that goes with it, if any. *)
Definition nonceReads (forwarder : Forwarder) (from : string) (w : World) : list Event :=
  match _nonces w !! from with
  | Some _ => []
  | None => [EvForwarderGetNonce (fwd_address forwarder) from]
  end.

(** The parts of a gasless run, named: what the preparation logs, the
    world it leaves, the domain, the request, and the two ways to a
    signature. *)
Section Parts.
Context `{Ext : Externals}.
Variables (this : SdkModule) (target : BaseContract) (fn : string)
          (args : list Arg) (callOverrides : CallOverrides) (w : World).
Variables (signer : Signer) (provider : Provider).
Variables (chain : Z) (from data : string) (gasEstimate nonce : Z).

Definition forwarderOf : Forwarder :=
  Forwarder__factory_connect
    (transactionRelayerForwarderAddress (options this)) provider.

Definition preparation : list Event :=
  [EvGetNetwork; EvGetAddress; EvEstimateGas (ct_address target) fn args]
  ++ nonceReads forwarderOf from w.

Definition prepared : World :=
  {| _nonces := <[from := nonce + 1]> (_nonces w);
     trace := trace w ++ preparation |}.

Definition domainOf : Domain :=
  {| name := "GSNv2 Forwarder";
     version := "0.0.1";
     chainId := chain;
     verifyingContract := transactionRelayerForwarderAddress (options this) |}.

Definition typesOf : TypedDataTypes := [("ForwardRequest", ForwardRequest)].

Definition requestOf : ForwardRequestMessage :=
  {| fr_from := from;
     fr_to := address this;
     fr_value := BigNumber_toString (default 0 (ov_value callOverrides));
     fr_gas := BigNumber_toString (forwardedGas gasEstimate);
     fr_nonce := BigNumber_toString nonce;
     fr_data := data |}.

(** Relay dispatch and the wait for the receipt, from world [w1]. *)
Definition dispatched (message : Message) (signature : string) (w1 : World)
    : result TransactionReceipt * World :=
  match transactionRelayerSendFunction (options this) message signature with
  | Ok txHash =>
      (waitForTransaction provider txHash,
       logged w1 [EvRelaySend message signature; EvWaitForTransaction txHash])
  | Throw e => (Throw e, logged w1 [EvRelaySend message signature])
  end.

(** The parameters of the raw [eth_signTypedData] request. *)
Definition rpcParams : list string :=
  [toLowerCase from;
   JSON_stringify (getPayload domainOf typesOf (ForwardRequestMsg requestOf))].

(** How a generic request is signed, and what the signer answers. *)
Definition signingCall : Event :=
  if walletConnect signer
  then EvRpcSend "eth_signTypedData" rpcParams
  else EvSignTypedData domainOf typesOf (ForwardRequestMsg requestOf).

Definition signingAnswer : result string :=
  if walletConnect signer
  then match sg_provider signer with
       | Some web3 => send web3 "eth_signTypedData" rpcParams
       | None => Throw (Rejected "signer" "no provider")
       end
  else _signTypedData signer domainOf typesOf (ForwardRequestMsg requestOf).

(** The permit flow: the call made to eth-permit, and the signature
    packed from its answer. *)
Definition permitCall : Event :=
  EvSignPermit (ct_address target) from
    (nth 0 args ArgUndefined) (nth 1 args ArgUndefined).

Definition permitAnswer : result ERC2612Permit :=
  signERC2612Permit signer (ct_address target) from
    (nth 0 args ArgUndefined) (nth 1 args ArgUndefined).

Definition packed (permit : ERC2612Permit) : string :=
  permit_r permit +:+ substring_from 2 (permit_s permit)
    +:+ toString16 (permit_v permit).

(** Either path: the signing call made, and the message and signature it
    leads to. *)
Definition signingCalls : list Event :=
  if usesPermit target fn args then [permitCall] else [signingCall].

Definition signed : result (Message * string) :=
  if usesPermit target fn args then
    match permitAnswer with
    | Ok permit => Ok (PermitRequestMsg (ct_address target) permit, packed permit)
    | Throw e => Throw e
    end
  else
    match signingAnswer with
    | Ok signature => Ok (ForwardRequestMsg requestOf, signature)
    | Throw e => Throw e
    end.

(** The overrides [getCallOverrides] makes of the oracle's answer. *)
Definition computedOverrides (quote : option GasPrice) : CallOverrides :=
  match quote with
  | Some price =>
      if gasPrice_truthy price
      then {| ov_value := None; ov_gasPrice := Some (parseUnits_gwei price) |}
      else no_overrides
  | None => no_overrides
  end.

(** What [sendAndWaitForTransaction] returns once the call resolved to
    [tx], from world [w1]. *)
Definition settled (tx : ContractTransaction) (w1 : World)
    : result TransactionReceipt * World :=
  match wait tx with
  | Some receipt => (receipt, logged w1 [EvTxWait (tx_hash tx)])
  | None => (Ok (tx_self tx), w1)
  end.

(** The standard path as the specification words it: without a relay,
    the call is submitted with the overrides computed from the gas-price
    oracle. *)
Definition standardPathUsesOracle (given : option CallOverrides) : Prop :=
  relayConfigured this = false ->
  exists computed w1,
    getCallOverrides this w = (Ok computed, w1)
    /\ sendContractTransaction this target fn args given w
       = sendAndWaitForTransaction target fn args computed w1.

End Parts.

(** ** A concrete deployment

    A DAO module at [dropAddress] whose signer is an ordinary JSON-RPC
    signer, a token with the permit extension, a token without it, and a
    relay that answers with a fixed transaction hash.  The examples and
    the instances of the theorems below are run on it. *)

Module Demo.

Definition dropAddress : string := "0x0173BaFF4d6B5f258a1b850165017353EE571609".
Definition tokenAddress : string := "0xc27EA7dD409F459f08eE59566b62d6fc45D64cCa".
Definition walletAddress : string := "0xA892BB45b97E8d10f7bCA63Da1cb29f59795c9b9".
Definition forwarderAddress : string := "0xF0511f123164602042ab2bCF02111fA5D3Fe97CD".

Definition permitOf (recovery : Z) (o sp : string) : ERC2612Permit :=
  {| permit_owner := o;
     permit_spender := sp;
     pm_value := "1000";
     pm_nonce := "0";
     permit_deadline := "1700000000";
     permit_v := recovery;
     permit_r := "0x1111111111111111111111111111111111111111111111111111111111111111";
     permit_s := "0x2222222222222222222222222222222222222222222222222222222222222222" |}.

Definition argText (a : Arg) : string :=
  match a with
  | ArgAddress x => x
  | ArgNumber n => pretty n
  | ArgBytes b => b
  | ArgList _ => "[]"
  | ArgUndefined => "undefined"
  end.

(** The externals, with a permit signer that yields recovery byte
    [recovery]. *)
Definition externals (recovery : Z) : Externals :=
  {| Payload := Domain * Message;
     getPayload := fun d _ m => (d, m);
     JSON_stringify := fun p =>
       match snd p with
       | ForwardRequestMsg m => "{nonce:" +:+ fr_nonce m +:+ "}"
       | PermitRequestMsg _ _ => "{permit}"
       end;
     signERC2612Permit := fun _ _ o sp _ => Ok (permitOf recovery o (argText sp));
     GasPrice := Z;
     gasPrice_truthy := fun p => negb (p =? 0)%Z;
     parseUnits_gwei := fun p => p * 1000000000;
     getGasPriceForChain := fun chain _ cap =>
       Ok (if (chain =? 137)%Z then Some (Z.min 30 cap) else None);
     ForwardRequest :=
       [("from", "address"); ("to", "address"); ("value", "uint256");
        ("gas", "uint256"); ("nonce", "uint256"); ("data", "bytes")] |}.

Definition receiptOf (h : string) : TransactionReceipt :=
  {| status := 1; transactionHash := h; blockNumber := 42 |}.

Definition provider : Provider :=
  {| getNetwork := Ok 137;
     waitForTransaction := fun h => Ok (receiptOf h);
     fw_getNonce := fun _ _ => Ok 7 |}.

Definition web3With (wc : option bool) : SignerProvider :=
  {| sp_provider := Some {| isWalletConnect := wc |};
     send := fun method _ => Ok ("0xrpc:" +:+ method) |}.

Definition signerWith (wc : option bool) : Signer :=
  {| _isSigner := true;
     getAddress := Ok walletAddress;
     sg_provider := Some (web3With wc);
     _signTypedData := fun _ _ _ => Ok "0xnative" |}.

Definition contractAt (a : string) (permit : bool) (estimate : Z) : BaseContract :=
  {| ct_address := a;
     ct_provider := Some provider;
     interface :=
       {| functions_has := fun sig =>
            String.eqb sig "approve(address,uint256)"
            || (permit && String.eqb sig
                  "permit(address,address,uint256,uint256,uint8,bytes32,bytes32)");
          encodeFunctionData := fun fn _ => Ok ("0xcall:" +:+ fn) |};
     estimateGas := fun _ _ => Ok estimate;
     functions := fun fn _ _ =>
       Ok {| tx_hash := "0xdirect";
             tx_self := receiptOf "0xself";
             wait := Some (Ok (receiptOf "0xdirect")) |} |}.

Definition optionsWith (url : option string) : ISDKOptions :=
  {| transactionRelayerUrl := url;
     transactionRelayerForwarderAddress := forwarderAddress;
     transactionRelayerSendFunction := fun _ _ => Ok "0xabc";
     gasSpeed := "fastest";
     maxGasPriceInGwei := 100 |}.

Definition moduleWith (url : option string) (sg : option Signer) : SdkModule :=
  {| address := dropAddress;
     options := optionsWith url;
     _signer := sg;
     contract := contractAt dropAddress false 60000;
     readOnlyContract := contractAt dropAddress false 60000 |}.

Definition relayUrl : option string := Some "https://relay.example".

Definition dao : SdkModule := moduleWith relayUrl (Some (signerWith None)).

Definition token (permit : bool) (estimate : Z) : BaseContract :=
  contractAt tokenAddress permit estimate.

(** The forward request of an approve call by the wallet, and the domain
    it is signed under. *)
Definition request (gas nonce : string) : Message :=
  ForwardRequestMsg
    {| fr_from := walletAddress;
       fr_to := dropAddress;
       fr_value := "0";
       fr_gas := gas;
       fr_nonce := nonce;
       fr_data := "0xcall:approve" |}.

Definition domain : Domain :=
  {| name := "GSNv2 Forwarder";
     version := "0.0.1";
     chainId := 137;
     verifyingContract := forwarderAddress |}.

Definition types : TypedDataTypes :=
  [("ForwardRequest",
    [("from", "address"); ("to", "address"); ("value", "uint256");
     ("gas", "uint256"); ("nonce", "uint256"); ("data", "bytes")])].

Definition start : World := {| _nonces := ∅; trace := [] |}.

Definition approveArgs : list Arg := [ArgAddress dropAddress; ArgNumber 1000].

End Demo.

(** ** What a computation may log *)

(** Every call [m] logs satisfies [P], and the log only grows. *)
Definition emits {A} (P : Event -> Prop) (m : M A) : Prop :=
  forall w, exists evs,
    trace (m w).2 = (trace w ++ evs)%list /\ Forall P evs.

(** [m] leaves the nonce cache as it found it. *)
Definition keepsNonces {A} (m : M A) : Prop :=
  forall w, _nonces (m w).2 = _nonces w.

(** The calls of the relay path: signing, nonce read, dispatch, wait. *)
Definition relayCall (ev : Event) : Prop :=
  match ev with
  | EvForwarderGetNonce _ _ | EvSignPermit _ _ _ _ | EvRpcSend _ _
  | EvSignTypedData _ _ _ | EvRelaySend _ _ | EvWaitForTransaction _ => True
  | _ => False
  end.

(** The calls of the standard path: the gas-price lookup, the direct
    submission and its wait. *)
Definition directCall (ev : Event) : Prop :=
  match ev with
  | EvGasPriceOracle _ _ _ | EvContractSend _ _ _ _ | EvTxWait _ => True
  | _ => False
  end.

(** ** The rest of the module classes

    The parts of [Module], [ModuleWithRoles] and [BundleDropModule]
    (src/node_modules/@3rdweb/sdk/src/modules/bundleDrop.ts) around the
    transaction paths.  What the small collaborator records above leave
    out is taken from [Bindings]: the event decoder of the contract
    interface, the [logs] of a receipt, and the view functions of the
    access-control and drop contracts.  The view functions are awaited
    reads; they are answered by the binding and are not logged. *)

Record Log := {
  log_data : string;
  log_topics : list string
}.

(** The contract metadata as far as the drop reads it: the snapshot URI
    of each merkle root, when there is a [merkle] entry at all. *)
Record ContractMetadata := {
  merkle : option (gmap string string);
  fee_recipient : option string
}.

(** A claim condition as the drop contract stores it. *)
Record ClaimConditionStruct := {
  cs_startTimestamp : Z;
  cs_maxClaimableSupply : Z;
  cs_supplyClaimed : Z;
  cs_quantityLimitPerTransaction : Z;
  cs_waitTimeInSecondsBetweenClaims : Z;
  cs_pricePerToken : Z;
  cs_currency : string;
  cs_merkleRoot : string
}.

(** A snapshot of an allow list: the proof of each address. *)
Record ClaimProof := {
  cp_address : string;
  cp_proof : list string
}.

Record Snapshot := {
  claims : list ClaimProof
}.

(** What a module is handed to reach the chain. *)
Inductive ProviderOrSigner :=
  | AProvider (provider : Provider)
  | ASigner (signer : Signer).

Class Bindings := {
  NFTMetadata : Type;
  MetadataURIOrObject : Type;
  decodeEventLog : Interface -> string -> string -> list string -> result (list Arg);
  logs : TransactionReceipt -> option (list Log);
  getRoleHash : string -> string;
  getRoleMemberCount : BaseContract -> string -> result Z;
  getRoleMember : BaseContract -> string -> Z -> result string;
  nextTokenIdToMint : BaseContract -> result Z;
  totalSupply : BaseContract -> string -> result Z;
  balanceOfBatch : BaseContract -> list string -> list Z -> result (list Z);
  getTokenMetadata : BaseContract -> string -> result NFTMetadata;
  uploadMetadataBatch : list MetadataURIOrObject -> string -> Z -> result string;
  uploadMetadata : MetadataURIOrObject -> result string;
  isContract : Provider -> string -> result bool;
  getContractMetadata : Provider -> string -> result (option ContractMetadata);
  CurrencyValue : Type;
  getCurrencyValue : string -> Z -> result CurrencyValue;
  getIndexOfActiveCondition : BaseContract -> Z -> result Z;
  getClaimConditionAtIndex : BaseContract -> Z -> Z -> result ClaimConditionStruct;
  storage_get : option string -> result string;
  parseSnapshot : string -> result Snapshot;
  ERC20__factory_connect : string -> BaseContract;
  allowance : BaseContract -> string -> string -> result Z;
  connectAt : string -> ProviderOrSigner -> BaseContract;
  readOnlyRpcUrl : ISDKOptions -> option string;
  connectDefaultProvider : BaseContract -> string -> BaseContract;
  tokenBalanceOf : SdkModule -> option string -> result Z;
  tokenTransfer : SdkModule -> string -> Z -> result TransactionReceipt
}.

(** An awaited read. *)
Definition read {A} (answer : result A) : M A := lift answer.

(** [BigNumber.prototype.toNumber]: the value when it fits the 53 bits of
    a safe integer, an overflow fault otherwise. *)
Definition toNumber (x : Z) : result Z :=
  if (Z.abs x <? 2 ^ 53)%Z then Ok x
  else Throw (Rejected "BigNumber" "overflow").

(** [Array(n)] for a number [n]: its length, or a RangeError. *)
Definition Array_ (n : Z) : result nat :=
  if ((0 <=? n) && (n <? 2 ^ 32))%Z then Ok (Z.to_nat n)
  else Throw (Rejected "RangeError" "Invalid array length").

(** [Array.from(Array(n).keys())]. *)
Definition keys (n : nat) : list nat := seq 0 n.

(** [Promise.all] over reads.  The members only read, so how they
    interleave does not show; of several rejections the one of the
    lowest index is reported. *)
Fixpoint Promise_all {A} (members : list (M A)) : M (list A) :=
  match members with
  | [] => mret []
  | member :: rest =>
      a ← member;
      others ← Promise_all rest;
      mret (a :: others)
  end.

(** [invariant] on a boolean condition. *)
Definition holds (condition : bool) : option unit :=
  if condition then Some tt else None.

(** The double quote character. *)
Definition dquote : string := String (ascii_of_nat 34) EmptyString.

(** The loop [for (let i = startingIndex; i.lte(endingIndex); i = i.add(1))
    tokenIds.push(i.toString())] of [createBatch]. *)
Equations? tokenIdsFrom (i endingIndex : Z) : list string
    by wf (Z.to_nat (endingIndex + 1 - i)) lt :=
  tokenIdsFrom i endingIndex with Z_le_gt_dec i endingIndex := {
    | left _ => BigNumber_toString i :: tokenIdsFrom (i + 1) endingIndex
    | right _ => []
  }.
Proof. lia. Qed.

Section Parsing.
Context `{Bind : Bindings}.
Variable this : SdkModule.

(** The loop of [parseEventLogs]: the first log that decodes. *)
Fixpoint firstDecoded (eventName : string) (remaining : list Log) : option (list Arg) :=
  match remaining with
  | [] => None
  | log :: rest =>
      match decodeEventLog (interface (contract this)) eventName
              (log_data log) (log_topics log) with
      | Ok event => Some event
      | Throw _ => firstDecoded eventName rest
      end
  end.

Definition parseEventLogs (eventName : string) (given : option (list Log))
    : option (list Arg) :=
  match given with
  | None => None
  | Some all => firstDecoded eventName all
  end.

End Parsing.

(** *** ModuleWithRoles *)

Section Roles.
Context `{Ext : Externals} `{Bind : Bindings}.
Variable this : SdkModule.

(** [getModuleRoles()], which each module class overrides. *)
Variable roles : list string.

(** [this.roles.includes(role)]. *)
Definition includes (role : string) : bool := existsb (String.eqb role) roles.

Definition unsupportedRole (role : string) : string :=
  "this module does not support the " +:+ dquote +:+ role +:+ dquote +:+ " role".

Definition getRoleMembers (role : string) : M (list string) :=
  invariant (holds (includes role)) (unsupportedRole role);;
  let contract := contract this in
  let roleHash := getRoleHash role in
  counted ← read (getRoleMemberCount contract roleHash);
  count ← lift (toNumber counted);
  size ← lift (Array_ count);
  Promise_all
    (map (fun i => read (getRoleMember contract roleHash (Z.of_nat i)))
         (keys size)).

(** The loop of [getAllRoleMembers], over the roles still to read. *)
Fixpoint collectRoleMembers (remaining : list string)
    (collected : gmap string (list string)) : M (gmap string (list string)) :=
  match remaining with
  | [] => mret collected
  | role :: rest =>
      members ← getRoleMembers role;
      collectRoleMembers rest (<[role := members]> collected)
  end.

Definition getAllRoleMembers : M (gmap string (list string)) :=
  invariant (holds (negb (Nat.eqb (length roles) 0)))
            "this module has no support for roles";;
  collectRoleMembers roles ∅.

Definition getRevokeRoleFunctionName (address : string) : M string :=
  signerAddress ← getSignerAddress this;
  if String.eqb (toLowerCase signerAddress) (toLowerCase address)
  then mret "renounceRole"
  else mret "revokeRole".

Definition grantRole (role address : string) : M TransactionReceipt :=
  invariant (holds (includes role)) (unsupportedRole role);;
  sendTransaction this "grantRole"
    [ArgBytes (getRoleHash role); ArgAddress address] None.

Definition revokeRole (role address : string) : M TransactionReceipt :=
  invariant (holds (includes role)) (unsupportedRole role);;
  revokeFunctionName ← getRevokeRoleFunctionName address;
  sendTransaction this revokeFunctionName
    [ArgBytes (getRoleHash role); ArgAddress address] None.

End Roles.

(** *** BundleDropModule *)

Module BundleDrop.

Record BundleDropMetadata `{Bind : Bindings} := {
  supply : Z;
  metadata : NFTMetadata
}.

Section Drop.
Context `{Ext : Externals} `{Bind : Bindings}.
Variable this : SdkModule.

(** [totalSupply(tokenId).catch(() => BigNumber.from(0))]. *)
Definition supplyOrZero (tokenId : string) : Z :=
  match totalSupply (readOnlyContract this) tokenId with
  | Ok supply => supply
  | Throw _ => 0
  end.

(** [get]: the supply read falls back to 0 when it rejects; the metadata
    read does not. *)
Definition get (tokenId : string) : M BundleDropMetadata :=
  supply ← mret (supplyOrZero tokenId);
  metadata ← read (getTokenMetadata (readOnlyContract this) tokenId);
  mret {| supply := supply; metadata := metadata |}.

Definition getAll : M (list BundleDropMetadata) :=
  next ← read (nextTokenIdToMint (readOnlyContract this));
  maxId ← lift (toNumber next);
  size ← lift (Array_ maxId);
  Promise_all (map (fun i => get (pretty (Z.of_nat i))) (keys size)).

(** [balances.map((b, i) => ({ tokenId: i, balance: b }))
    .filter((b) => b.balance.gt(0))]. *)
Definition ownedBalances (balances : list Z) : list (nat * Z) :=
  List.filter (fun entry => (0 <? entry.2)%Z)
              (imap (fun i b => (i, b)) balances).


(** [createBatch]: the ids are read off the first LazyMintedTokens
    event of the receipt; destructuring a missing event, or comparing
    values that are not numbers, is a TypeError. *)
Definition createBatch (metadatas : list MetadataURIOrObject) : M (list string) :=
  startFileNumber ← read (nextTokenIdToMint (readOnlyContract this));
  start ← lift (toNumber startFileNumber);
  baseUri ← read (uploadMetadataBatch metadatas (address this) start);
  receipt ← sendTransaction this "lazyMint"
              [ArgNumber (Z.of_nat (length metadatas)); ArgBytes baseUri] None;
  match parseEventLogs this "LazyMintedTokens" (logs receipt) with
  | Some (ArgNumber startingIndex :: ArgNumber endingIndex :: _) =>
      mret (tokenIdsFrom startingIndex endingIndex)
  | _ => mthrow (Rejected "TypeError" "event is not iterable")
  end.

(** [transfer], whose [data] defaults to the byte array [[0]], and
    [burn]. *)
Definition transfer (to : string) (tokenId amount : Z) (data : option Arg)
    : M TransactionReceipt :=
  from ← getSignerAddress this;
  sendTransaction this "safeTransferFrom"
    [ArgAddress from; ArgAddress to; ArgNumber tokenId; ArgNumber amount;
     default (ArgBytes "0x00") data] None.

Definition burn (tokenId amount : Z) : M TransactionReceipt :=
  account ← getSignerAddress this;
  sendTransaction this "burn"
    [ArgAddress account; ArgNumber tokenId; ArgNumber amount] None.

End Drop.

End BundleDrop.

(** *** Module: the signer and the provider

    A module instance with its private [_providerOrSigner] beside the
    fields above.  [connectAt] is the factory's connect that a module
    class gives as connectContract, [readOnlyRpcUrl] the option of that
    name, and [connectDefaultProvider contract url] stands for
    [contract.connect(ethers.getDefaultProvider(url))]. *)

Record Connected := {
  fields : SdkModule;
  _providerOrSigner : option ProviderOrSigner
}.

Section Connection.
Context `{Bind : Bindings}.

(** [Signer.isSigner(value)], with the signer it then is. *)
Definition isSigner (value : ProviderOrSigner) : option Signer :=
  match value with
  | ASigner signer => if _isSigner signer then Some signer else None
  | AProvider _ => None
  end.

(** The [providerOrSigner] getter: the signer, else what was stored.
    With neither, the getter and getProviderOrSigner call each other
    until the stack is exhausted. *)
Definition providerOrSigner (this : Connected) : result ProviderOrSigner :=
  match _signer (fields this) with
  | Some signer => Ok (ASigner signer)
  | None =>
      match _providerOrSigner this with
      | Some stored => Ok stored
      | None => Throw (Rejected "RangeError" "Maximum call stack size exceeded")
      end
  end.

Definition withSigner (this : SdkModule) (signer : option Signer) : SdkModule :=
  {| address := address this;
     options := options this;
     _signer := signer;
     contract := contract this;
     readOnlyContract := readOnlyContract this |}.

Definition withContract (this : SdkModule) (connected : BaseContract) : SdkModule :=
  {| address := address this;
     options := options this;
     _signer := _signer this;
     contract := connected;
     readOnlyContract :=
       match readOnlyRpcUrl (options this) with
       | Some url =>
           if String.eqb url "" then connected
           else connectDefaultProvider connected url
       | None => connected
       end |}.

Definition setProviderOrSigner (this : Connected) (value : ProviderOrSigner)
    : result Connected :=
  let this := {| fields := fields this; _providerOrSigner := Some value |} in
  let this :=
    match isSigner value with
    | Some signer =>
        {| fields := withSigner (fields this) (Some signer);
           _providerOrSigner := _providerOrSigner this |}
    | None => this
    end in
  match providerOrSigner this with
  | Ok through =>
      Ok {| fields := withContract (fields this)
                        (connectAt (address (fields this)) through);
            _providerOrSigner := _providerOrSigner this |}
  | Throw e => Throw e
  end.

Definition clearSigner (this : Connected) : Connected :=
  {| fields := withSigner (fields this) None;
     _providerOrSigner := _providerOrSigner this |}.

End Connection.

(** *** Module: existence and metadata *)

Section Metadata.
Context `{Ext : Externals} `{Bind : Bindings}.
Variable this : SdkModule.

Definition exists_ : M bool :=
  provider ← getProvider this;
  provider ← invariant provider "exists() -- No Provider";
  read (isContract provider (address this)).

(** [getMetadata], as far as its [metadata] field; the contract it
    connects is the module's, at the module's address. *)
Definition getMetadata : M (option ContractMetadata) :=
  deployed ← exists_;
  invariant (holds deployed) "contract does not exist";;
  provider ← getProvider this;
  match provider with
  | Some provider => read (getContractMetadata provider (address this))
  | None => mthrow (Rejected "TypeError" "provider is undefined")
  end.

Definition setMetadata (metadata : MetadataURIOrObject) : M (option ContractMetadata) :=
  deployed ← exists_;
  invariant (holds deployed) "contract does not exist";;
  uri ← read (uploadMetadata metadata);
  sendTransaction this "setContractURI" [ArgBytes uri] None;;
  getMetadata.

End Metadata.

(** *** BundleDropModule: claiming *)

Module Claiming.

Record ClaimCondition `{Bind : Bindings} := {
  startTimestamp : Z;
  maxMintSupply : string;
  currentMintSupply : string;
  availableSupply : string;
  quantityLimitPerTransaction : string;
  waitTimeSecondsLimitPerTransaction : string;
  price : Z;
  pricePerToken : Z;
  currency : string;
  currencyContract : string;
  currencyMetadata : CurrencyValue;
  merkleRoot : string
}.

(** [AddressZero] and [hexZeroPad([0], 32)]. *)
Definition AddressZero : string := "0x0000000000000000000000000000000000000000".

Definition zeroBytes32 : string :=
  "0x0000000000000000000000000000000000000000000000000000000000000000".

Section Claim.
Context `{Ext : Externals} `{Bind : Bindings}.
Variable this : SdkModule.

(** [startTimestamp] is the date of the given second, in milliseconds. *)
Definition transformResultToClaimCondition (pm : ClaimConditionStruct)
    : M ClaimCondition :=
  cv ← read (getCurrencyValue (cs_currency pm) (cs_pricePerToken pm));
  seconds ← lift (toNumber (cs_startTimestamp pm));
  mret {| startTimestamp := seconds * 1000;
          maxMintSupply := BigNumber_toString (cs_maxClaimableSupply pm);
          currentMintSupply := BigNumber_toString (cs_supplyClaimed pm);
          availableSupply :=
            BigNumber_toString (cs_maxClaimableSupply pm - cs_supplyClaimed pm);
          quantityLimitPerTransaction :=
            BigNumber_toString (cs_quantityLimitPerTransaction pm);
          waitTimeSecondsLimitPerTransaction :=
            BigNumber_toString (cs_waitTimeInSecondsBetweenClaims pm);
          price := cs_pricePerToken pm;
          pricePerToken := cs_pricePerToken pm;
          currency := cs_currency pm;
          currencyContract := cs_currency pm;
          currencyMetadata := cv;
          merkleRoot := cs_merkleRoot pm |}.

Definition getActiveClaimCondition (tokenId : Z) : M ClaimCondition :=
  index ← read (getIndexOfActiveCondition (readOnlyContract this) tokenId);
  pm ← read (getClaimConditionAtIndex (readOnlyContract this) tokenId index);
  transformResultToClaimCondition pm.

(** [metadata?.merkle[root]]: undefined without metadata, a TypeError
    when the metadata has no [merkle] entry. *)
Definition snapshotUri (metadata : option ContractMetadata) (root : string)
    : result (option string) :=
  match metadata with
  | None => Ok None
  | Some found =>
      match merkle found with
      | Some uris => Ok (uris !! root)
      | None => Throw (Rejected "TypeError" "cannot read properties of undefined")
      end
  end.

(** [snapshotData.claims.find((c) => c.address === addressToClaim)]. *)
Definition findClaim (snapshot : Snapshot) (addressToClaim : string)
    : option ClaimProof :=
  List.find (fun c => String.eqb (cp_address c) addressToClaim) (claims snapshot).

(** The proofs a claim goes with: the ones given when the condition's
    merkle root starts with the zero address, the signer's entry of the
    snapshot otherwise. *)
Definition resolveProofs (root addressToClaim : string)
    (metadata : option ContractMetadata) (proofs : list string)
    : M (list string) :=
  if negb (String.prefix AddressZero root) then
    uri ← lift (snapshotUri metadata root);
    snapshot ← read (storage_get uri);
    snapshotData ← lift (parseSnapshot snapshot);
    match findClaim snapshotData addressToClaim with
    | None => mthrow (Rejected "Error" "No claim found for this address")
    | Some item => mret (cp_proof item)
    end
  else mret proofs.

(** The payment of a claim: the overrides it goes with, after the
    approval it may need. *)
Definition settlePayment (mintCondition : ClaimCondition) (quantity : Z)
    (overrides : CallOverrides) : M CallOverrides :=
  if (0 <? pricePerToken mintCondition)%Z then
    if String.eqb (currency mintCondition) AddressZero then
      mret {| ov_value := Some (pricePerToken mintCondition * quantity);
              ov_gasPrice := ov_gasPrice overrides |}
    else
      let erc20 := ERC20__factory_connect (currency mintCondition) in
      owner ← getSignerAddress this;
      let spender := address this in
      allowed ← read (allowance erc20 owner spender);
      let totalPrice := pricePerToken mintCondition * quantity in
      (if (allowed <? totalPrice)%Z then
         sendContractTransaction this erc20 "approve"
           [ArgAddress spender; ArgNumber (allowed + totalPrice)] None;;
         mret tt
       else mret tt);;
      mret overrides
  else mret overrides.

Definition claim (tokenId quantity : Z) (proofs : option (list string)) : M unit :=
  let proofs := default [zeroBytes32] proofs in
  mintCondition ← getActiveClaimCondition tokenId;
  overrides ← getCallOverrides this;
  addressToClaim ← getSignerAddress this;
  metadata ← getMetadata this;
  proofs ← resolveProofs (merkleRoot mintCondition) addressToClaim metadata proofs;
  overrides ← settlePayment mintCondition quantity overrides;
  sendTransaction this "claim"
    [ArgNumber tokenId; ArgNumber quantity; ArgList proofs] (Some overrides);;
  mret tt.

End Claim.

End Claiming.

(** *** scripts/9-setup-vote.js *)

(** What the script does that shows outside: console lines, the exit,
    and the transfer it asks for. *)
Inductive ScriptStep :=
  | ConsoleLog (line : string)
  | ConsoleError (line : string)
  | ProcessExit (code : Z)
  | TransferAsked (to : string) (amount : Z).

(** [ownedAmount.div(100).mul(75)]; the division truncates. *)
Definition percent75 (ownedAmount : Z) : Z := (ownedAmount ÷ 100) * 75.

Section SetupVote.
Context `{Ext : Externals} `{Bind : Bindings}.

(** The token module, its roles, the address of the vote module and
    [process.env.WALLET_ADDRESS]. *)
Variables (tokenModule : SdkModule) (tokenRoles : list string)
          (voteAddress : string) (wallet : option string).

Definition setupVote (w : World) : list ScriptStep * World :=
  match grantRole tokenModule tokenRoles "minter" voteAddress w with
  | (Throw _, w1) =>
      ([ConsoleError "failed to grant vote module permissions on token module";
        ProcessExit 1], w1)
  | (Ok _, w1) =>
      let granted :=
        ConsoleLog "✅ Successfully gave vote module permissions to act on token module" in
      match tokenBalanceOf tokenModule wallet with
      | Throw _ =>
          ([granted; ConsoleError "failed to transfer tokens to vote module"], w1)
      | Ok ownedAmount =>
          let asked := TransferAsked voteAddress (percent75 ownedAmount) in
          match tokenTransfer tokenModule voteAddress (percent75 ownedAmount) with
          | Throw _ =>
              ([granted; asked;
                ConsoleError "failed to transfer tokens to vote module"], w1)
          | Ok _ =>
              ([granted; asked;
                ConsoleLog "✅ Successfully transferred tokens to vote module"], w1)
          end
      end
  end.

End SetupVote.

(** ** A concrete drop

    The deployment above with a drop contract of three minted tokens,
    an access-control list, four claim conditions (free, priced in the
    native currency, priced in a token, allow-listed) and a receipt
    whose second log is the LazyMintedTokens event. *)

Module Deployed.

Definition allowListRoot : string :=
  "0x5d1a0000000000000000000000000000000000000000000000000000000000aa".

Definition minted : Log :=
  {| log_data := "0x0305"; log_topics := ["LazyMintedTokens"] |}.

Definition transferred : Log :=
  {| log_data := "0x01"; log_topics := ["TransferSingle"] |}.

(** The condition of token [tokenId]: 0 is free, 1 costs 2 of the native
    currency, 2 costs 20 of the token at [Demo.tokenAddress], 3 is free
    and allow-listed. *)
Definition conditionOf (tokenId : Z) : ClaimConditionStruct :=
  {| cs_startTimestamp := 1640000000;
     cs_maxClaimableSupply := 100;
     cs_supplyClaimed := 40;
     cs_quantityLimitPerTransaction := 5;
     cs_waitTimeInSecondsBetweenClaims := 0;
     cs_pricePerToken :=
       if (tokenId =? 1)%Z then 2 else if (tokenId =? 2)%Z then 20 else 0;
     cs_currency :=
       if (tokenId =? 2)%Z then Demo.tokenAddress else Claiming.AddressZero;
     cs_merkleRoot :=
       if (tokenId =? 3)%Z then allowListRoot else Claiming.zeroBytes32 |}.

Definition snapshot : Snapshot :=
  {| claims :=
       [ {| cp_address := "0xa892bb45b97e8d10f7bca63da1cb29f59795c9b9";
            cp_proof := ["0xlower"] |};
         {| cp_address := Demo.walletAddress; cp_proof := ["0xp1"; "0xp2"] |};
         {| cp_address := Demo.walletAddress; cp_proof := ["0xlater"] |} ] |}.

Definition deployedMetadata : ContractMetadata :=
  {| merkle := Some {[ allowListRoot := "ipfs://snapshot" ]};
     fee_recipient := None |}.

Definition membersOf (role : string) : list string :=
  if String.eqb role "admin" then [Demo.walletAddress]
  else if String.eqb role "minter" then [Demo.walletAddress; Demo.dropAddress]
  else [].

Definition hashOf (role : string) : string := "role:" +:+ role.

Definition roleOf (hash : string) : string := substring_from 5 hash.

Definition roles : list string := ["admin"; "minter"; "transfer"].

Definition bindings : Bindings :=
  {| NFTMetadata := string;
     MetadataURIOrObject := string;
     decodeEventLog := fun _ eventName data topics =>
       match topics with
       | topic :: _ =>
           if String.eqb topic eventName
           then Ok [ArgNumber 3; ArgNumber 5; ArgBytes "ipfs://base/"]
           else Throw (Rejected "decode" "no matching event")
       | [] => Throw (Rejected "decode" "no topics")
       end;
     logs := fun receipt =>
       if String.eqb (transactionHash receipt) "0xdirect"
       then Some [transferred; minted]
       else None;
     getRoleHash := hashOf;
     getRoleMemberCount := fun _ hash =>
       Ok (Z.of_nat (length (membersOf (roleOf hash))));
     getRoleMember := fun _ hash i =>
       match membersOf (roleOf hash) !! Z.to_nat i with
       | Some member => Ok member
       | None => Throw (Rejected "call" "index out of bounds")
       end;
     nextTokenIdToMint := fun _ => Ok 3;
     totalSupply := fun _ tokenId =>
       if String.eqb tokenId "1" then Throw (Rejected "call" "reverted")
       else Ok 10;
     balanceOfBatch := fun _ _ _ => Ok [0; 4; 7];
     getTokenMetadata := fun _ tokenId => Ok ("token " +:+ tokenId);
     uploadMetadataBatch := fun _ _ _ => Ok "ipfs://base/";
     uploadMetadata := fun metadata => Ok metadata;
     isContract := fun _ at_ => Ok (String.eqb at_ Demo.dropAddress);
     getContractMetadata := fun _ _ => Ok (Some deployedMetadata);
     CurrencyValue := string;
     getCurrencyValue := fun currency _ => Ok currency;
     getIndexOfActiveCondition := fun _ _ => Ok 0;
     getClaimConditionAtIndex := fun _ tokenId _ => Ok (conditionOf tokenId);
     storage_get := fun uri =>
       match uri with
       | Some _ => Ok "{claims}"
       | None => Throw (Rejected "storage" "no uri")
       end;
     parseSnapshot := fun _ => Ok snapshot;
     ERC20__factory_connect := fun at_ => Demo.contractAt at_ false 60000;
     allowance := fun _ _ _ => Ok 30;
     connectAt := fun at_ _ => Demo.contractAt at_ false 60000;
     readOnlyRpcUrl := fun _ => None;
     connectDefaultProvider := fun connected _ => connected;
     tokenBalanceOf := fun _ _ => Ok 1000050;
     tokenTransfer := fun _ _ _ => Ok (Demo.receiptOf "0xtransfer") |}.

Definition entry (supply : Z) (metadata : string)
    : BundleDrop.BundleDropMetadata (Bind := bindings) :=
  BundleDrop.Build_BundleDropMetadata bindings supply metadata.

(** The drop module on the standard path, and without a signer. *)
Definition drop : SdkModule := Demo.moduleWith None (Some (Demo.signerWith None)).

Definition unsigned : SdkModule := Demo.moduleWith None None.

(** A module elsewhere, where no contract is deployed. *)
Definition elsewhere : SdkModule :=
  {| address := Demo.tokenAddress;
     options := Demo.optionsWith None;
     _signer := None;
     contract := Demo.contractAt Demo.tokenAddress false 60000;
     readOnlyContract := Demo.contractAt Demo.tokenAddress false 60000 |}.

(** A contract whose gas cannot be estimated, a signer who refuses to
    sign, and a relay that refuses what it is sent. *)
Definition unestimable : BaseContract :=
  {| ct_address := Demo.tokenAddress;
     ct_provider := Some Demo.provider;
     interface :=
       {| functions_has := fun _ => false;
          encodeFunctionData := fun fn _ =>
            if String.eqb fn "approve" then Ok "0xcall:approve"
            else Throw (Rejected "interface" "no matching function") |};
     estimateGas := fun _ _ => Throw (Rejected "call" "execution reverted");
     functions := fun _ _ _ => Throw (Rejected "call" "execution reverted") |}.

Definition refusing : Signer :=
  {| _isSigner := true;
     getAddress := Ok Demo.walletAddress;
     sg_provider := None;
     _signTypedData := fun _ _ _ => Throw (Rejected "signer" "user rejected signing") |}.

Definition closedRelay : SdkModule :=
  {| address := Demo.dropAddress;
     options :=
       {| transactionRelayerUrl := Demo.relayUrl;
          transactionRelayerForwarderAddress := Demo.forwarderAddress;
          transactionRelayerSendFunction := fun _ _ =>
            Throw (Rejected "relay" "over quota");
          gasSpeed := "fastest";
          maxGasPriceInGwei := 100 |};
     _signer := Some (Demo.signerWith None);
     contract := Demo.contractAt Demo.dropAddress false 60000;
     readOnlyContract := Demo.contractAt Demo.dropAddress false 60000 |}.

(** A drop whose transactions leave no logs that the binding knows, and
    a module whose contract has no provider. *)
Definition quietContract : BaseContract :=
  {| ct_address := Demo.dropAddress;
     ct_provider := Some Demo.provider;
     interface := interface (Demo.contractAt Demo.dropAddress false 60000);
     estimateGas := fun _ _ => Ok 60000;
     functions := fun _ _ _ =>
       Ok {| tx_hash := "0xquiet";
             tx_self := Demo.receiptOf "0xself";
             wait := Some (Ok (Demo.receiptOf "0xquiet")) |} |}.

Definition quiet : SdkModule :=
  {| address := Demo.dropAddress;
     options := Demo.optionsWith None;
     _signer := Some (Demo.signerWith None);
     contract := quietContract;
     readOnlyContract := quietContract |}.

Definition offlineContract : BaseContract :=
  {| ct_address := Demo.dropAddress;
     ct_provider := None;
     interface := interface (Demo.contractAt Demo.dropAddress false 60000);
     estimateGas := fun _ _ => Ok 60000;
     functions := fun _ _ _ => Throw (Rejected "call" "missing provider") |}.

Definition offline : SdkModule :=
  {| address := Demo.dropAddress;
     options := Demo.optionsWith None;
     _signer := None;
     contract := offlineContract;
     readOnlyContract := offlineContract |}.

Definition handle : Connected :=
  {| fields := Demo.dao; _providerOrSigner := Some (ASigner (Demo.signerWith None)) |}.

End Deployed.

(** ** Running the monad *)

Lemma logged_logged w e1 e2 : logged (logged w e1) e2 = logged w (e1 ++ e2)%list.
Proof. unfold logged; simpl. by rewrite app_assoc. Qed.

Lemma since_logged w evs : since w (logged w evs) = evs.
Proof. unfold since, logged; simpl. apply drop_app_length. Qed.

Lemma call_run {A} ev (answer : result A) w :
  call ev answer w = (answer, logged w [ev]).
Proof. reflexivity. Qed.

Lemma bind_run {A B} (m : M A) (f : A -> M B) w :
  (m ≫= f) w = match m w with
               | (Ok a, w') => f a w'
               | (Throw e, w') => (Throw e, w')
               end.
Proof. reflexivity. Qed.

Lemma getAndIncrementNonce_run forwarder from w :
  getAndIncrementNonce forwarder from w =
  match nonceSource forwarder from w with
  | Ok n => (Ok n, {| _nonces := <[from := n + 1]> (_nonces w);
                      trace := trace w ++ nonceReads forwarder from w |})
  | Throw e => (Throw e, logged w (nonceReads forwarder from w))
  end.
Proof.
  unfold getAndIncrementNonce, nonceSource, nonceReads.
  rewrite bind_run. unfold readNonce at 1.
  destruct (_nonces w !! from) as [n|] eqn:Hc.
  - cbn. by rewrite app_nil_r.
  - rewrite bind_run, call_run.
    destruct (fw_getNonce _ _ _); reflexivity.
Qed.

Lemma relayed_app e1 e2 : relayed (e1 ++ e2) = (relayed e1 ++ relayed e2)%list.
Proof. apply omap_app. Qed.

Lemma forwardRequests_app e1 e2 :
  forwardRequests (e1 ++ e2) = (forwardRequests e1 ++ forwardRequests e2)%list.
Proof. unfold forwardRequests. by rewrite relayed_app, omap_app. Qed.

Lemma signings_app e1 e2 : signings (e1 ++ e2) = (signings e1 ++ signings e2)%list.
Proof. apply List.filter_app. Qed.

Lemma forwardedGas_spec e :
  forwardedGas e = if (e <? 25000)%Z then 500000 else 2 * e.
Proof. unfold forwardedGas. by rewrite Z.mul_comm. Qed.

(** ** A gasless call whose preparation succeeds

    The shared assumptions: a valid signer, a provider on the read-only
    contract, and answers to the chain id, address, encoding, gas
    estimate and nonce requests. *)

Section Gasless.
Context `{Ext : Externals}.
Variables (this : SdkModule) (target : BaseContract) (fn : string)
          (args : list Arg) (callOverrides : CallOverrides) (w : World).
Variables (signer : Signer) (provider : Provider).
Variables (chain : Z) (from data : string) (gasEstimate nonce : Z).

Local Abbreviation forwarder := (forwarderOf this provider).
Local Abbreviation prep := (preparation this target fn args w provider from).
Local Abbreviation ready := (prepared this target fn args w provider from nonce).
Local Abbreviation domain := (domainOf this chain).
Local Abbreviation request := (requestOf this callOverrides from data gasEstimate nonce).
Local Abbreviation answer :=
  (signingAnswer this callOverrides signer chain from data gasEstimate nonce).
Local Abbreviation asked :=
  (signingCalls this target fn args callOverrides signer chain from data
     gasEstimate nonce).
Local Abbreviation handed :=
  (signed this target fn args callOverrides signer chain from data
     gasEstimate nonce).
Local Abbreviation run := (sendGaslessTransaction this target fn args callOverrides w).

Hypothesis Hsigner : getSigner this = Some signer.
Hypothesis Hprovider : ct_provider (readOnlyContract this) = Some provider.
Hypothesis Hnetwork : getNetwork provider = Ok chain.
Hypothesis Haddress : getAddress signer = Ok from.
Hypothesis Hencode : encodeFunctionData (interface target) fn args = Ok data.
Hypothesis Hestimate : estimateGas target fn args = Ok gasEstimate.
Hypothesis Hnonce : nonceSource forwarder from w = Ok nonce.

Lemma nonceSource_logged evs :
  nonceSource forwarder from (logged w evs) = nonceSource forwarder from w.
Proof. reflexivity. Qed.

Lemma prepared_world :
  {| _nonces := <[from := nonce + 1]> (_nonces w);
     trace := (trace w ++ [EvGetNetwork; EvGetAddress;
                           EvEstimateGas (ct_address target) fn args])
              ++ nonceReads forwarder from
                   (logged w [EvGetNetwork; EvGetAddress;
                              EvEstimateGas (ct_address target) fn args]) |}
  = ready.
Proof. unfold prepared, preparation. by rewrite app_assoc. Qed.

Ltac prepare :=
  unfold sendGaslessTransaction;
  rewrite bind_run, Hsigner; cbn [invariant mret M_ret];
  rewrite bind_run; cbn [getProvider mret M_ret];
  rewrite bind_run, Hprovider; cbn [invariant mret M_ret];
  rewrite bind_run; unfold getChainID at 1;
  rewrite bind_run; cbn [getProvider mret M_ret];
  rewrite bind_run, Hprovider; cbn [invariant mret M_ret];
  rewrite call_run, Hnetwork;
  rewrite bind_run; unfold getSignerAddress at 1;
  rewrite bind_run, Hsigner; cbn [invariant mret M_ret];
  rewrite call_run, Haddress;
  rewrite bind_run; unfold lift at 1; rewrite Hencode;
  rewrite bind_run, call_run, Hestimate;
  rewrite bind_run, getAndIncrementNonce_run;
  fold forwarder;
  rewrite !logged_logged, nonceSource_logged, Hnonce;
  cbn [logged _nonces trace app];
  rewrite prepared_world.

(** The whole run: the request is signed on one of the two paths, then
    dispatched. *)
Lemma gasless_run :
  run = match handed with
        | Ok (message, signature) =>
            dispatched this provider message signature (logged ready asked)
        | Throw e => (Throw e, logged ready asked)
        end.
Proof.
  prepare. rewrite bind_run.
  unfold signed, signingCalls, permitAnswer, permitCall, packed,
    signingAnswer, signingCall, rpcParams, dispatched.
  fold domain typesOf request.
  destruct (usesPermit target fn args) eqn:Hpath;
    [|destruct (walletConnect signer) eqn:Hwc];
    rewrite bind_run, call_run;
    (match goal with
     | |- context [match ?a with Ok _ => _ | Throw _ => _ end] =>
         destruct a as [a'|e]; [|reflexivity]
     end);
    cbn [mret M_ret]; rewrite bind_run, call_run;
    (destruct (transactionRelayerSendFunction _ _ _) as [txHash|e];
       [|reflexivity]);
    rewrite call_run, !logged_logged; reflexivity.
Qed.

Lemma since_prepared evs : since w (logged ready evs) = (prep ++ evs)%list.
Proof.
  unfold since, logged, prepared; simpl.
  by rewrite <- app_assoc, drop_app_length.
Qed.

Lemma relayed_preparation : relayed prep = [].
Proof.
  unfold preparation, nonceReads.
  destruct (_nonces w !! from); reflexivity.
Qed.

Lemma signings_preparation : signings prep = [].
Proof.
  unfold preparation, nonceReads.
  destruct (_nonces w !! from); reflexivity.
Qed.

Lemma relayed_asked : relayed asked = [].
Proof.
  unfold signingCalls, signingCall.
  destruct (usesPermit target fn args), (walletConnect signer); reflexivity.
Qed.

Lemma signings_asked : signings asked = asked.
Proof.
  unfold signingCalls, signingCall.
  destruct (usesPermit target fn args), (walletConnect signer); reflexivity.
Qed.

(** What reaches the relay: the signed message, when signing succeeds. *)
Lemma relayed_run :
  relayed (since w run.2) =
  match handed with
  | Ok (message, signature) => [(message, signature)]
  | Throw _ => []
  end.
Proof.
  rewrite gasless_run.
  destruct handed as [[message signature]|e]; unfold dispatched;
    [destruct (transactionRelayerSendFunction _ _ _)|]; simpl snd;
    rewrite ?logged_logged, since_prepared, !relayed_app,
      relayed_preparation, relayed_asked; reflexivity.
Qed.

(** Exactly one signature is asked for. *)
Lemma signings_run : signings (since w run.2) = asked.
Proof.
  rewrite gasless_run.
  destruct handed as [[message signature]|e]; unfold dispatched;
    [destruct (transactionRelayerSendFunction _ _ _)|]; simpl snd;
    rewrite ?logged_logged, since_prepared, !signings_app,
      signings_preparation, signings_asked; simpl; by rewrite ?app_nil_r.
Qed.

(** The nonce cache after the run, whatever the outcome of signing,
    dispatch and mining. *)
Lemma nonces_run : _nonces run.2 = <[from := nonce + 1]> (_nonces w).
Proof.
  rewrite gasless_run.
  destruct handed as [[message signature]|e]; unfold dispatched;
    [destruct (transactionRelayerSendFunction _ _ _)|]; reflexivity.
Qed.

(** On the generic path the request built from the preparation is the
    one dispatched. *)
Lemma generic_forward_requests signature :
  usesPermit target fn args = false ->
  answer = Ok signature ->
  relayed (since w run.2) = [(ForwardRequestMsg request, signature)].
Proof.
  intros Hpath Hsig. rewrite relayed_run. unfold signed.
  by rewrite Hpath, Hsig.
Qed.

(** The fields of that request.  [fr_to] is the module's own address,
    whichever contract the call is made on. *)
Lemma forward_request_fields :
  fr_from request = from
  /\ fr_to request = address this
  /\ fr_value request = BigNumber_toString (default 0 (ov_value callOverrides))
  /\ fr_gas request = BigNumber_toString (forwardedGas gasEstimate)
  /\ fr_nonce request = BigNumber_toString nonce
  /\ fr_data request = data.
Proof. by repeat split. Qed.

(** On the permit path the message is the permit request, addressed to
    the contract the call is made on, and the signature is [r], [s]
    without its prefix, and [v] in unpadded hexadecimal. *)
Lemma permit_relayed permit :
  usesPermit target fn args = true ->
  permitAnswer target args signer from = Ok permit ->
  relayed (since w run.2) =
    [(PermitRequestMsg (ct_address target) permit,
      permit_r permit +:+ substring_from 2 (permit_s permit)
        +:+ toString16 (permit_v permit))].
Proof.
  intros Hpath Hpermit. rewrite relayed_run. unfold signed.
  by rewrite Hpath, Hpermit.
Qed.

(** C2: the gas limit placed in the forward request is 500000 when the
    estimate is below 25000 and twice the estimate otherwise; an estimate
    of 24999 gives 500000 and one of 25000 gives 50000. *)
Theorem C2_forwarded_gas_policy signature :
  usesPermit target fn args = false ->
  answer = Ok signature ->
  fr_gas <$> forwardRequests (since w run.2)
    = [BigNumber_toString
         (if (gasEstimate <? 25000)%Z then 500000 else 2 * gasEstimate)]
  /\ forwardedGas 24999 = 500000
  /\ forwardedGas 25000 = 50000.
Proof.
  intros Hpath Hsig. split; [|by split].
  unfold forwardRequests.
  rewrite (generic_forward_requests signature Hpath Hsig). simpl.
  by rewrite forwardedGas_spec.
Qed.

(** C4: a generic request is signed through the raw JSON-RPC method
    eth_signTypedData, with the lower-cased sender address and the
    JSON-serialised EIP-712 payload, when the signer's provider carries
    isWalletConnect = true, and through the signer's own _signTypedData
    with the same domain, types and message otherwise; the signature
    obtained is the one dispatched. *)
Theorem C4_typed_data_signing_route :
  usesPermit target fn args = false ->
  let message := ForwardRequestMsg request in
  (forall web3 external signature,
     sg_provider signer = Some web3 ->
     sp_provider web3 = Some external ->
     isWalletConnect external = Some true ->
     send web3 "eth_signTypedData"
       [toLowerCase from; JSON_stringify (getPayload domain typesOf message)]
       = Ok signature ->
     signings (since w run.2)
       = [EvRpcSend "eth_signTypedData"
            [toLowerCase from;
             JSON_stringify (getPayload domain typesOf message)]]
     /\ relayed (since w run.2) = [(message, signature)])
  /\ (forall signature,
       walletConnect signer = false ->
       _signTypedData signer domain typesOf message = Ok signature ->
       signings (since w run.2) = [EvSignTypedData domain typesOf message]
       /\ relayed (since w run.2) = [(message, signature)]).
Proof.
  intros Hpath message. split.
  - intros web3 external signature Hweb3 Hext Hflag Hsend.
    assert (Hwc : walletConnect signer = true).
    { unfold walletConnect. by rewrite Hweb3, Hext, Hflag. }
    assert (Hsig : answer = Ok signature).
    { unfold signingAnswer, rpcParams. by rewrite Hwc, Hweb3. }
    split; [|by apply generic_forward_requests].
    rewrite signings_run. unfold signingCalls, signingCall, rpcParams.
    by rewrite Hpath, Hwc.
  - intros signature Hwc Hnative.
    assert (Hsig : answer = Ok signature).
    { unfold signingAnswer. by rewrite Hwc. }
    split; [|by apply generic_forward_requests].
    rewrite signings_run. unfold signingCalls, signingCall.
    by rewrite Hpath, Hwc.
Qed.

(** C8: the hash the relay-dispatch function returns is the one handed
    to waitForTransaction, and what waitForTransaction resolves to is
    what the call returns. *)
Theorem C8_receipt_returned_unchanged message signature txHash :
  relayed (since w run.2) = [(message, signature)] ->
  transactionRelayerSendFunction (options this) message signature = Ok txHash ->
  run.1 = waitForTransaction provider txHash
  /\ last (since w run.2) = Some (EvWaitForTransaction txHash)
  /\ (forall receipt,
        waitForTransaction provider txHash = Ok receipt -> run.1 = Ok receipt).
Proof.
  intros Hrelayed Hhash. rewrite relayed_run in Hrelayed.
  rewrite gasless_run.
  destruct handed as [[message' signature']|e]; [|discriminate].
  injection Hrelayed as -> ->.
  unfold dispatched. rewrite Hhash. simpl.
  split; [reflexivity|]. split; [|by intros receipt ->].
  rewrite logged_logged, since_prepared.
  change [EvRelaySend message signature; EvWaitForTransaction txHash]
    with ([EvRelaySend message signature] ++ [EvWaitForTransaction txHash])%list.
  by rewrite !app_assoc, last_snoc.
Qed.

(** C9: a generic request is signed under the domain with name
    "GSNv2 Forwarder", version "0.0.1", the chain id the provider
    reports and the configured forwarder address as verifying
    contract. *)
Theorem C9_signing_domain :
  usesPermit target fn args = false ->
  let fixed := {| name := "GSNv2 Forwarder";
                  version := "0.0.1";
                  chainId := chain;
                  verifyingContract :=
                    transactionRelayerForwarderAddress (options this) |} in
  let message := ForwardRequestMsg request in
  signings (since w run.2)
    = [if walletConnect signer
       then EvRpcSend "eth_signTypedData"
              [toLowerCase from;
               JSON_stringify (getPayload fixed typesOf message)]
       else EvSignTypedData fixed typesOf message].
Proof.
  intros Hpath fixed message.
  rewrite signings_run. unfold signingCalls, signingCall, rpcParams.
  rewrite Hpath. reflexivity.
Qed.

(** C10: on the permit path the nonce source is read and the cached
    nonce of the sender is incremented all the same, before the permit is
    signed, and the permit request that is dispatched is made of the
    permit alone: the forwarder nonce is not in it. *)
Theorem C10_permit_path_consumes_nonce :
  usesPermit target fn args = true ->
  _nonces run.2 !! from = Some (nonce + 1)
  /\ (exists rest,
        since w run.2
        = ([EvGetNetwork; EvGetAddress; EvEstimateGas (ct_address target) fn args]
           ++ nonceReads forwarder from w
           ++ permitCall target args from :: rest)%list)
  /\ (forall permit,
        permitAnswer target args signer from = Ok permit ->
        relayed (since w run.2)
        = [(PermitRequestMsg (ct_address target) permit, packed permit)]).
Proof.
  intros Hpath. split; [|split].
  - rewrite nonces_run. apply lookup_insert_eq.
  - rewrite gasless_run.
    destruct handed as [[message signature]|e]; unfold dispatched;
      [destruct (transactionRelayerSendFunction _ _ _)|]; simpl snd;
      rewrite ?logged_logged, since_prepared;
      unfold preparation, signingCalls; rewrite Hpath;
      rewrite <- !app_assoc; simpl; eauto.
  - intros permit Hpermit. by apply permit_relayed.
Qed.

End Gasless.

(** ** Two calls in a row *)

(** C3: the nonce field of the forward request is the value the nonce
    source hands out when it is read, the cached nonce of the sender is
    that value plus one afterwards, and so the next call by the same
    sender in the same process carries a different nonce. *)
Theorem C3_nonce_read_then_incremented `{Ext : Externals}
    (this : SdkModule) (signer : Signer) (provider : Provider)
    (chain : Z) (from : string) (nonce : Z) (w : World)
    (target1 : BaseContract) (fn1 : string) (args1 : list Arg)
    (overrides1 : CallOverrides) (data1 : string) (estimate1 : Z)
    (signature1 : string)
    (target2 : BaseContract) (fn2 : string) (args2 : list Arg)
    (overrides2 : CallOverrides) (data2 : string) (estimate2 : Z)
    (signature2 : string) :
  getSigner this = Some signer ->
  ct_provider (readOnlyContract this) = Some provider ->
  getNetwork provider = Ok chain ->
  getAddress signer = Ok from ->
  nonceSource (forwarderOf this provider) from w = Ok nonce ->
  encodeFunctionData (interface target1) fn1 args1 = Ok data1 ->
  estimateGas target1 fn1 args1 = Ok estimate1 ->
  usesPermit target1 fn1 args1 = false ->
  signingAnswer this overrides1 signer chain from data1 estimate1 nonce
    = Ok signature1 ->
  encodeFunctionData (interface target2) fn2 args2 = Ok data2 ->
  estimateGas target2 fn2 args2 = Ok estimate2 ->
  usesPermit target2 fn2 args2 = false ->
  signingAnswer this overrides2 signer chain from data2 estimate2 (nonce + 1)
    = Ok signature2 ->
  let w1 := (sendGaslessTransaction this target1 fn1 args1 overrides1 w).2 in
  let w2 := (sendGaslessTransaction this target2 fn2 args2 overrides2 w1).2 in
  (getAndIncrementNonce (forwarderOf this provider) from w).1 = Ok nonce
  /\ fr_nonce <$> forwardRequests (since w w1) = [BigNumber_toString nonce]
  /\ _nonces w1 !! from = Some (nonce + 1)
  /\ nonce < nonce + 1
  /\ nonceSource (forwarderOf this provider) from w1 = Ok (nonce + 1)
  /\ fr_nonce <$> forwardRequests (since w1 w2) = [BigNumber_toString (nonce + 1)]
  /\ BigNumber_toString nonce <> BigNumber_toString (nonce + 1).
Proof.
  intros Hsigner Hprovider Hnetwork Haddress Hnonce
    Hencode1 Hestimate1 Hpath1 Hsig1 Hencode2 Hestimate2 Hpath2 Hsig2 w1 w2.
  assert (Hcache : _nonces w1 !! from = Some (nonce + 1)).
  { unfold w1. erewrite nonces_run by eassumption. apply lookup_insert_eq. }
  assert (Hnext : nonceSource (forwarderOf this provider) from w1 = Ok (nonce + 1)).
  { unfold nonceSource. by rewrite Hcache. }
  repeat split; try assumption; try lia.
  - by rewrite getAndIncrementNonce_run, Hnonce.
  - unfold forwardRequests, w1.
    by erewrite generic_forward_requests by eassumption.
  - unfold forwardRequests, w2.
    by erewrite generic_forward_requests by eassumption.
  - unfold BigNumber_toString. intros Hsame.
    apply (inj pretty) in Hsame. lia.
Qed.

(** ** No signer *)

(** C6: with no signer attached the relay builder throws an
    InvariantError and leaves the world as it was: no call has been
    made to any collaborator, so there is no gas estimate, no nonce read
    and no relay dispatch. *)
Theorem C6_missing_signer_fails_first `{Ext : Externals}
    (this : SdkModule) (target : BaseContract) (fn : string)
    (args : list Arg) (callOverrides : CallOverrides) (w : World) :
  getSigner this = None ->
  let failure : result TransactionReceipt :=
    Throw (InvariantError
             "Cannot execute gasless transaction without valid signer") in
  sendGaslessTransaction this target fn args callOverrides w = (failure, w)
  /\ since w (sendGaslessTransaction this target fn args callOverrides w).2 = []
  /\ _nonces (sendGaslessTransaction this target fn args callOverrides w).2
     = _nonces w
  /\ (relayConfigured this = true ->
      sendContractTransaction this target fn args (Some callOverrides) w
      = (failure, w)).
Proof.
  intros Hnone failure.
  assert (Hrun : sendGaslessTransaction this target fn args callOverrides w
                 = (failure, w)).
  { unfold sendGaslessTransaction. by rewrite bind_run, Hnone. }
  split; [exact Hrun|]. rewrite Hrun. simpl.
  split; [unfold since; apply drop_all|]. split; [reflexivity|].
  intros Hrelay. unfold sendContractTransaction.
  rewrite bind_run. cbn [mret M_ret]. by rewrite Hrelay.
Qed.

(** ** The choice of path and the standard path *)

Section Standard.
Context `{Ext : Externals}.
Variables (this : SdkModule) (target : BaseContract) (fn : string)
          (args : list Arg) (w : World).
Variables (provider : Provider) (chain : Z) (quote : option GasPrice).

Local Abbreviation speed := (gasSpeed (options this)).
Local Abbreviation cap := (maxGasPriceInGwei (options this)).

Hypothesis Hprovider : ct_provider (readOnlyContract this) = Some provider.
Hypothesis Hnetwork : getNetwork provider = Ok chain.
Hypothesis Horacle : getGasPriceForChain chain speed cap = Ok quote.

Lemma getCallOverrides_run :
  getCallOverrides this w =
  (Ok (computedOverrides quote),
   logged w [EvGetNetwork; EvGasPriceOracle chain speed cap]).
Proof.
  unfold getCallOverrides. rewrite bind_run. unfold getChainID.
  rewrite bind_run. cbn [getProvider mret M_ret].
  rewrite bind_run, Hprovider. cbn [invariant mret M_ret].
  rewrite call_run, Hnetwork, bind_run, call_run, Horacle, logged_logged.
  unfold computedOverrides.
  destruct quote as [price|]; [destruct (gasPrice_truthy price)|]; reflexivity.
Qed.

Lemma sendAndWaitForTransaction_run overrides tx w1 :
  functions target fn args overrides = Ok tx ->
  sendAndWaitForTransaction target fn args overrides w1 =
  settled tx (logged w1 [EvContractSend (ct_address target) fn args overrides]).
Proof.
  intros Htx. unfold sendAndWaitForTransaction, settled.
  rewrite bind_run, call_run, Htx.
  destruct (wait tx); reflexivity.
Qed.

(** C7, amended: the relay path is taken exactly when a relay URL is
    configured.  On either path the overrides are the caller's when the
    caller supplied some, and the gas-price oracle is not asked; only
    when the caller supplied none are they computed from the oracle
    (a gasPrice of the quoted price in gwei, no override when the oracle
    yields no price).  On the standard path the call is submitted with
    these overrides, and the result is what the transaction's wait
    resolves to, or the transaction object itself when it has no wait. *)
Theorem C7_path_selection_and_overrides :
  (relayConfigured this = true ->
     (forall given,
        sendContractTransaction this target fn args (Some given) w
        = sendGaslessTransaction this target fn args given w)
     /\ sendContractTransaction this target fn args None w
        = sendGaslessTransaction this target fn args (computedOverrides quote)
            (logged w [EvGetNetwork; EvGasPriceOracle chain speed cap]))
  /\ (relayConfigured this = false ->
      (forall given tx,
         functions target fn args given = Ok tx ->
         sendContractTransaction this target fn args (Some given) w
         = settled tx
             (logged w [EvContractSend (ct_address target) fn args given]))
      /\ (forall tx,
            functions target fn args (computedOverrides quote) = Ok tx ->
            sendContractTransaction this target fn args None w
            = settled tx
                (logged w [EvGetNetwork; EvGasPriceOracle chain speed cap;
                           EvContractSend (ct_address target) fn args
                             (computedOverrides quote)])))
  /\ computedOverrides None = no_overrides
  /\ (forall price,
        computedOverrides (Some price)
        = if gasPrice_truthy price
          then {| ov_value := None; ov_gasPrice := Some (parseUnits_gwei price) |}
          else no_overrides).
Proof.
  split; [|split; [|by split]].
  - intros Hrelay. split.
    + intros given. unfold sendContractTransaction.
      rewrite bind_run. cbn [mret M_ret]. by rewrite Hrelay.
    + unfold sendContractTransaction.
      by rewrite bind_run, getCallOverrides_run, Hrelay.
  - intros Hrelay. split.
    + intros given tx Htx. unfold sendContractTransaction.
      rewrite bind_run. cbn [mret M_ret]. rewrite Hrelay.
      by apply sendAndWaitForTransaction_run.
    + intros tx Htx. unfold sendContractTransaction.
      rewrite bind_run, getCallOverrides_run, Hrelay.
      rewrite (sendAndWaitForTransaction_run _ tx) by assumption.
      by rewrite logged_logged.
Qed.

(** With a relay configured, no signer and no overrides from the caller,
    the chain id and the gas price are looked up before the relay builder
    is entered; the builder then fails as above. *)
Lemma missing_signer_after_overrides :
  relayConfigured this = true ->
  getSigner this = None ->
  sendContractTransaction this target fn args None w =
  (Throw (InvariantError
            "Cannot execute gasless transaction without valid signer"),
   logged w [EvGetNetwork; EvGasPriceOracle chain speed cap]).
Proof.
  intros Hrelay Hnone. unfold sendContractTransaction.
  rewrite bind_run, getCallOverrides_run, Hrelay.
  unfold sendGaslessTransaction. by rewrite bind_run, Hnone.
Qed.

End Standard.

(** ** The packed permit signature *)

(** [v] takes two hexadecimal digits, one byte, exactly from 16 to 255. *)
Lemma toString16_byte v :
  16 <= v < 256 -> String.length (toString16 v) = 2%nat.
Proof.
  intros Hv.
  assert (Hall : forallb (fun n => Nat.eqb (String.length (toString16 (Z.of_nat n))) 2)
                         (seq 16 240) = true) by (vm_compute; reflexivity).
  rewrite forallb_forall in Hall.
  specialize (Hall (Z.to_nat v)).
  rewrite Z2Nat.id in Hall by lia.
  apply Nat.eqb_eq, Hall, in_seq. lia.
Qed.

(** Below 16 it takes one digit: half a byte. *)
Lemma toString16_nibble v :
  0 <= v < 16 -> String.length (toString16 v) = 1%nat.
Proof.
  intros Hv.
  assert (Hall : forallb (fun n => Nat.eqb (String.length (toString16 (Z.of_nat n))) 1)
                         (seq 0 16) = true) by (vm_compute; reflexivity).
  rewrite forallb_forall in Hall.
  specialize (Hall (Z.to_nat v)).
  rewrite Z2Nat.id in Hall by lia.
  apply Nat.eqb_eq, Hall, in_seq. lia.
Qed.

(** C1: an approve call on a token with the permit extension, signed by
    a signer whose signatures end in the recovery id 1.  The permit
    request is built, addressed to the token, but the packed signature
    ends in the single digit 1: it has 129 hexadecimal digits after the
    prefix, where r, s and a one-byte v take 130. *)
Theorem C1_permit_recovery_id_unpadded :
  let token := Demo.token true 60000 in
  let run := sendGaslessTransaction (Ext := Demo.externals 1) Demo.dao
               token "approve" Demo.approveArgs no_overrides Demo.start in
  let permit := Demo.permitOf 1 Demo.walletAddress Demo.dropAddress in
  usesPermit token "approve" Demo.approveArgs = true
  /\ relayed (trace run.2)
     = [(PermitRequestMsg Demo.tokenAddress permit,
         permit_r permit +:+ substring_from 2 (permit_s permit) +:+ "1")]
  /\ String.length (permit_r permit) = 66%nat
  /\ String.length (substring_from 2 (permit_s permit)) = 64%nat
  /\ (forall signature,
        In signature (snd <$> relayed (trace run.2)) ->
        String.length signature = 131%nat).
Proof.
  repeat split; try (vm_compute; reflexivity).
  intros signature Hin. vm_compute in Hin.
  destruct Hin as [<-|[]]. vm_compute. reflexivity.
Qed.

(** C5: an approve call made through sendContractTransaction on a token
    that is not the module's own contract and has no permit extension.
    The call data and the gas estimate are the token's, but the forward
    request names the module's address as [to], not the token's. *)
Theorem C5_forward_request_names_module :
  let token := Demo.token false 60000 in
  let run := sendContractTransaction (Ext := Demo.externals 27) Demo.dao
               token "approve" Demo.approveArgs None Demo.start in
  ct_address token = Demo.tokenAddress
  /\ address Demo.dao = Demo.dropAddress
  /\ Demo.dropAddress <> Demo.tokenAddress
  /\ forwardRequests (trace run.2)
     = [{| fr_from := Demo.walletAddress;
           fr_to := Demo.dropAddress;
           fr_value := "0";
           fr_gas := "120000";
           fr_nonce := "7";
           fr_data := "0xcall:approve" |}].
Proof.
  repeat split; try (vm_compute; reflexivity).
  discriminate.
Qed.

(** C7 as stated fails: a call that brings its own overrides, with no
    relay configured, is submitted with them and the gas-price oracle is
    never asked, although it would quote a price. *)
Lemma C7_given_overrides_skip_oracle :
  ~ standardPathUsesOracle (Ext := Demo.externals 27)
      (Demo.moduleWith None (Some (Demo.signerWith None)))
      (Demo.contractAt Demo.dropAddress false 60000)
      "claim" [ArgNumber 0; ArgNumber 1; ArgList []] Demo.start
      (Some {| ov_value := Some 5; ov_gasPrice := None |}).
Proof.
  intros Hclaim.
  destruct (Hclaim eq_refl) as (computed & w1 & Hcomputed & Hsame).
  vm_compute in Hcomputed. injection Hcomputed as <- <-.
  vm_compute in Hsame. discriminate Hsame.
Qed.

(** ** The theorems at the concrete deployment *)

Lemma C2_forwarded_gas_policy_witness :
  fr_gas <$> forwardRequests
               (since Demo.start
                  (sendGaslessTransaction (Ext := Demo.externals 27)
                     Demo.dao (Demo.token false 24999) "approve"
                     Demo.approveArgs no_overrides Demo.start).2)
    = ["500000"]
  /\ forwardedGas 24999 = 500000
  /\ forwardedGas 25000 = 50000.
Proof.
  exact (@C2_forwarded_gas_policy (Demo.externals 27) Demo.dao
           (Demo.token false 24999) "approve" Demo.approveArgs no_overrides
           Demo.start (Demo.signerWith None) Demo.provider 137
           Demo.walletAddress "0xcall:approve" 24999 7
           eq_refl eq_refl eq_refl eq_refl eq_refl eq_refl eq_refl
           "0xnative" eq_refl eq_refl).
Defined.

Lemma C3_nonce_read_then_incremented_witness :
  let w1 := (sendGaslessTransaction (Ext := Demo.externals 27) Demo.dao
               (Demo.token false 60000) "approve" Demo.approveArgs
               no_overrides Demo.start).2 in
  let w2 := (sendGaslessTransaction (Ext := Demo.externals 27) Demo.dao
               (contract Demo.dao) "setRestrictedTransfer" [ArgNumber 1]
               no_overrides w1).2 in
  (getAndIncrementNonce (forwarderOf Demo.dao Demo.provider)
     Demo.walletAddress Demo.start).1 = Ok 7
  /\ fr_nonce <$> forwardRequests (since Demo.start w1) = ["7"]
  /\ _nonces w1 !! Demo.walletAddress = Some 8
  /\ 7 < 8
  /\ nonceSource (forwarderOf Demo.dao Demo.provider) Demo.walletAddress w1
     = Ok 8
  /\ fr_nonce <$> forwardRequests (since w1 w2) = ["8"]
  /\ "7" <> "8".
Proof.
  exact (@C3_nonce_read_then_incremented (Demo.externals 27) Demo.dao
           (Demo.signerWith None) Demo.provider 137 Demo.walletAddress 7
           Demo.start
           (Demo.token false 60000) "approve" Demo.approveArgs no_overrides
           "0xcall:approve" 60000 "0xnative"
           (contract Demo.dao) "setRestrictedTransfer" [ArgNumber 1]
           no_overrides "0xcall:setRestrictedTransfer" 60000 "0xnative"
           eq_refl eq_refl eq_refl eq_refl eq_refl eq_refl eq_refl eq_refl
           eq_refl eq_refl eq_refl eq_refl eq_refl).
Defined.

Lemma C4_typed_data_signing_route_witness :
  let viaConnector :=
    since Demo.start
      (sendGaslessTransaction (Ext := Demo.externals 27)
         (Demo.moduleWith Demo.relayUrl (Some (Demo.signerWith (Some true))))
         (Demo.token false 60000) "approve" Demo.approveArgs no_overrides
         Demo.start).2 in
  let native :=
    since Demo.start
      (sendGaslessTransaction (Ext := Demo.externals 27) Demo.dao
         (Demo.token false 60000) "approve" Demo.approveArgs no_overrides
         Demo.start).2 in
  (signings viaConnector
   = [EvRpcSend "eth_signTypedData"
        ["0xa892bb45b97e8d10f7bca63da1cb29f59795c9b9"; "{nonce:7}"]]
   /\ relayed viaConnector
      = [(Demo.request "120000" "7", "0xrpc:eth_signTypedData")])
  /\ (signings native
      = [EvSignTypedData Demo.domain Demo.types (Demo.request "120000" "7")]
      /\ relayed native = [(Demo.request "120000" "7", "0xnative")]).
Proof.
  split.
  - exact (proj1
             (@C4_typed_data_signing_route (Demo.externals 27)
                (Demo.moduleWith Demo.relayUrl (Some (Demo.signerWith (Some true))))
                (Demo.token false 60000) "approve" Demo.approveArgs
                no_overrides Demo.start (Demo.signerWith (Some true))
                Demo.provider 137 Demo.walletAddress "0xcall:approve" 60000 7
                eq_refl eq_refl eq_refl eq_refl eq_refl eq_refl eq_refl eq_refl)
             (Demo.web3With (Some true)) {| isWalletConnect := Some true |}
             "0xrpc:eth_signTypedData" eq_refl eq_refl eq_refl eq_refl).
  - exact (proj2
             (@C4_typed_data_signing_route (Demo.externals 27) Demo.dao
                (Demo.token false 60000) "approve" Demo.approveArgs
                no_overrides Demo.start (Demo.signerWith None)
                Demo.provider 137 Demo.walletAddress "0xcall:approve" 60000 7
                eq_refl eq_refl eq_refl eq_refl eq_refl eq_refl eq_refl eq_refl)
             "0xnative" eq_refl eq_refl).
Defined.

Lemma C6_missing_signer_fails_first_witness :
  let unsigned := Demo.moduleWith Demo.relayUrl None in
  let failure : result TransactionReceipt :=
    Throw (InvariantError
             "Cannot execute gasless transaction without valid signer") in
  sendGaslessTransaction (Ext := Demo.externals 27) unsigned
    (Demo.token true 60000) "approve" Demo.approveArgs no_overrides Demo.start
  = (failure, Demo.start)
  /\ sendContractTransaction (Ext := Demo.externals 27) unsigned
       (Demo.token true 60000) "approve" Demo.approveArgs (Some no_overrides)
       Demo.start
     = (failure, Demo.start).
Proof.
  intros unsigned failure.
  destruct (@C6_missing_signer_fails_first (Demo.externals 27) unsigned
              (Demo.token true 60000) "approve" Demo.approveArgs no_overrides
              Demo.start eq_refl) as (Hbuilder & _ & _ & Hcaller).
  exact (conj Hbuilder (Hcaller eq_refl)).
Defined.

Lemma C7_path_selection_and_overrides_witness :
  let direct := Demo.moduleWith None (Some (Demo.signerWith None)) in
  let own := {| ov_value := Some 5; ov_gasPrice := None |} in
  let quoted := {| ov_value := None; ov_gasPrice := Some 30000000000 |} in
  let submit := EvContractSend Demo.tokenAddress "approve" Demo.approveArgs in
  sendContractTransaction (Ext := Demo.externals 27) direct
    (Demo.token false 60000) "approve" Demo.approveArgs (Some own) Demo.start
  = (Ok (Demo.receiptOf "0xdirect"),
     logged Demo.start [submit own; EvTxWait "0xdirect"])
  /\ sendContractTransaction (Ext := Demo.externals 27) direct
       (Demo.token false 60000) "approve" Demo.approveArgs None Demo.start
     = (Ok (Demo.receiptOf "0xdirect"),
        logged Demo.start
          [EvGetNetwork; EvGasPriceOracle 137 "fastest" 100; submit quoted;
           EvTxWait "0xdirect"])
  /\ sendContractTransaction (Ext := Demo.externals 27) Demo.dao
       (Demo.token false 60000) "approve" Demo.approveArgs (Some own) Demo.start
     = sendGaslessTransaction (Ext := Demo.externals 27) Demo.dao
         (Demo.token false 60000) "approve" Demo.approveArgs own Demo.start.
Proof.
  intros direct own quoted submit.
  pose proof (@C7_path_selection_and_overrides (Demo.externals 27) direct
                (Demo.token false 60000) "approve" Demo.approveArgs Demo.start
                Demo.provider 137 (Some 30) eq_refl eq_refl eq_refl)
    as (_ & Hdirect & _).
  pose proof (@C7_path_selection_and_overrides (Demo.externals 27) Demo.dao
                (Demo.token false 60000) "approve" Demo.approveArgs Demo.start
                Demo.provider 137 (Some 30) eq_refl eq_refl eq_refl)
    as (Hrelay & _).
  destruct (Hdirect eq_refl) as (Hown & Hquoted).
  split; [|split].
  - exact (Hown own _ eq_refl).
  - exact (Hquoted _ eq_refl).
  - exact (proj1 (Hrelay eq_refl) own).
Defined.

Lemma C8_receipt_returned_unchanged_witness :
  let run := sendGaslessTransaction (Ext := Demo.externals 27) Demo.dao
               (Demo.token false 60000) "approve" Demo.approveArgs
               no_overrides Demo.start in
  run.1 = Ok (Demo.receiptOf "0xabc")
  /\ last (since Demo.start run.2) = Some (EvWaitForTransaction "0xabc").
Proof.
  intros run.
  destruct (@C8_receipt_returned_unchanged (Demo.externals 27) Demo.dao
              (Demo.token false 60000) "approve" Demo.approveArgs no_overrides
              Demo.start (Demo.signerWith None) Demo.provider 137
              Demo.walletAddress "0xcall:approve" 60000 7
              eq_refl eq_refl eq_refl eq_refl eq_refl eq_refl eq_refl
              (Demo.request "120000" "7") "0xnative" "0xabc" eq_refl eq_refl)
    as (_ & Hlast & Hreceipt).
  exact (conj (Hreceipt _ eq_refl) Hlast).
Defined.

Lemma C9_signing_domain_witness :
  signings
    (since Demo.start
       (sendGaslessTransaction (Ext := Demo.externals 27) Demo.dao
          (Demo.token false 60000) "approve" Demo.approveArgs no_overrides
          Demo.start).2)
  = [EvSignTypedData
       {| name := "GSNv2 Forwarder";
          version := "0.0.1";
          chainId := 137;
          verifyingContract := Demo.forwarderAddress |}
       Demo.types (Demo.request "120000" "7")].
Proof.
  exact (@C9_signing_domain (Demo.externals 27) Demo.dao
           (Demo.token false 60000) "approve" Demo.approveArgs no_overrides
           Demo.start (Demo.signerWith None) Demo.provider 137
           Demo.walletAddress "0xcall:approve" 60000 7
           eq_refl eq_refl eq_refl eq_refl eq_refl eq_refl eq_refl eq_refl).
Defined.

Lemma C10_permit_path_consumes_nonce_witness :
  let run := sendGaslessTransaction (Ext := Demo.externals 27) Demo.dao
               (Demo.token true 60000) "approve" Demo.approveArgs
               no_overrides Demo.start in
  let permit := Demo.permitOf 27 Demo.walletAddress Demo.dropAddress in
  _nonces run.2 !! Demo.walletAddress = Some 8
  /\ (exists rest,
        since Demo.start run.2
        = ([EvGetNetwork; EvGetAddress;
            EvEstimateGas Demo.tokenAddress "approve" Demo.approveArgs;
            EvForwarderGetNonce Demo.forwarderAddress Demo.walletAddress;
            EvSignPermit Demo.tokenAddress Demo.walletAddress
              (ArgAddress Demo.dropAddress) (ArgNumber 1000)] ++ rest)%list)
  /\ relayed (since Demo.start run.2)
     = [(PermitRequestMsg Demo.tokenAddress permit,
         permit_r permit +:+ substring_from 2 (permit_s permit) +:+ "1b")].
Proof.
  intros run permit.
  destruct (@C10_permit_path_consumes_nonce (Demo.externals 27) Demo.dao
              (Demo.token true 60000) "approve" Demo.approveArgs no_overrides
              Demo.start (Demo.signerWith None) Demo.provider 137
              Demo.walletAddress "0xcall:approve" 60000 7
              eq_refl eq_refl eq_refl eq_refl eq_refl eq_refl eq_refl eq_refl)
    as (Hcache & Hread & Hmessage).
  exact (conj Hcache (conj Hread (Hmessage permit eq_refl))).
Defined.

(** ** What the paths never do *)

Lemma emits_ret {A} P (a : A) : emits P (mret a).
Proof. intros w. exists []. by rewrite app_nil_r. Qed.

Lemma emits_throw {A} P (e : error) : emits P (mthrow e : M A).
Proof. intros w. exists []. by rewrite app_nil_r. Qed.

Lemma emits_lift {A} P (answer : result A) : emits P (lift answer).
Proof. intros w. exists []. by rewrite app_nil_r. Qed.

Lemma emits_call {A} (P : Event -> Prop) ev (answer : result A) :
  P ev -> emits P (call ev answer).
Proof. intros Hev w. exists [ev]. split; [reflexivity|]. by constructor. Qed.

Lemma emits_bind {A B} P (m : M A) (f : A -> M B) :
  emits P m -> (forall a, emits P (f a)) -> emits P (m ≫= f).
Proof.
  intros Hm Hf w. rewrite bind_run.
  destruct (Hm w) as (evs1 & Htrace1 & Hall1).
  destruct (m w) as [[a|e] w1] eqn:Hrun; simpl in *.
  - destruct (Hf a w1) as (evs2 & Htrace2 & Hall2).
    exists (evs1 ++ evs2)%list. split.
    + by rewrite Htrace2, Htrace1, app_assoc.
    + by apply Forall_app.
  - by exists evs1.
Qed.

Lemma emits_invariant {A} P (condition : option A) message :
  emits P (invariant condition message).
Proof. destruct condition; [apply emits_ret|apply emits_throw]. Qed.

Lemma emits_weaken {A} (P Q : Event -> Prop) (m : M A) :
  (forall ev, P ev -> Q ev) -> emits P m -> emits Q m.
Proof.
  intros HPQ Hm w. destruct (Hm w) as (evs & Htrace & Hall).
  exists evs. split; [done|]. by eapply Forall_impl.
Qed.

Lemma keepsNonces_ret {A} (a : A) : keepsNonces (mret a).
Proof. by intros w. Qed.

Lemma keepsNonces_call {A} ev (answer : result A) : keepsNonces (call ev answer).
Proof. by intros w. Qed.

Lemma keepsNonces_invariant {A} (condition : option A) message :
  keepsNonces (invariant condition message).
Proof. by destruct condition; intros w. Qed.

Lemma keepsNonces_bind {A B} (m : M A) (f : A -> M B) :
  keepsNonces m -> (forall a, keepsNonces (f a)) -> keepsNonces (m ≫= f).
Proof.
  intros Hm Hf w. rewrite bind_run. specialize (Hm w).
  destruct (m w) as [[a|e] w1]; simpl in *; [|done].
  by rewrite Hf.
Qed.

Ltac emits_step :=
  first
    [ apply emits_ret | apply emits_throw | apply emits_lift
    | apply emits_invariant
    | apply emits_call; (exact I || (intros []))
    | apply emits_bind; [|intros ?] ].

Ltac keeps_step :=
  first
    [ apply keepsNonces_ret | apply keepsNonces_invariant
    | apply keepsNonces_call
    | apply keepsNonces_bind; [|intros ?] ].

Lemma getChainID_emits `{Ext : Externals} this P :
  P EvGetNetwork -> emits P (getChainID this).
Proof.
  intros HP. unfold getChainID, getProvider.
  apply emits_bind; [apply emits_ret|intros provider].
  apply emits_bind; [apply emits_invariant|intros p].
  by apply emits_call.
Qed.

Lemma getCallOverrides_emits `{Ext : Externals} this P :
  P EvGetNetwork -> (forall chain speed cap, P (EvGasPriceOracle chain speed cap)) ->
  emits P (getCallOverrides this).
Proof.
  intros Hnet Horacle. unfold getCallOverrides.
  apply emits_bind; [by apply getChainID_emits|intros chain].
  apply emits_bind; [by apply emits_call|intros [price|]].
  - destruct (gasPrice_truthy price); apply emits_ret.
  - apply emits_ret.
Qed.

Lemma getCallOverrides_keepsNonces `{Ext : Externals} this :
  keepsNonces (getCallOverrides this).
Proof.
  unfold getCallOverrides, getChainID, getProvider.
  apply keepsNonces_bind; [repeat keeps_step|intros chain].
  apply keepsNonces_bind; [keeps_step|intros [price|]].
  - destruct (gasPrice_truthy price); keeps_step.
  - keeps_step.
Qed.

Lemma sendAndWaitForTransaction_emits target fn args overrides :
  emits (fun ev => match ev with
                   | EvContractSend _ _ _ _ | EvTxWait _ => True
                   | _ => False
                   end)
        (sendAndWaitForTransaction target fn args overrides).
Proof.
  unfold sendAndWaitForTransaction.
  apply emits_bind; [by apply emits_call|intros tx].
  destruct (wait tx); [by apply emits_call|apply emits_ret].
Qed.

Lemma sendAndWaitForTransaction_keepsNonces target fn args overrides :
  keepsNonces (sendAndWaitForTransaction target fn args overrides).
Proof.
  unfold sendAndWaitForTransaction.
  apply keepsNonces_bind; [keeps_step|intros tx].
  destruct (wait tx); keeps_step.
Qed.

(** X1: a gasless call never submits a transaction itself and never asks the
    gas-price oracle, whatever its collaborators answer and wherever it
    fails: the calls it adds to the log are none of the standard path's. *)
Theorem gasless_never_submits_directly `{Ext : Externals}
    (this : SdkModule) (target : BaseContract) (fn : string)
    (args : list Arg) (callOverrides : CallOverrides) :
  emits (fun ev => ~ directCall ev)
        (sendGaslessTransaction this target fn args callOverrides).
Proof.
  unfold sendGaslessTransaction, getSignerAddress, getProvider,
    getAndIncrementNonce.
  apply emits_bind; [apply emits_invariant|intros signer].
  apply emits_bind; [apply emits_ret|intros provider'].
  apply emits_bind; [apply emits_invariant|intros provider].
  apply emits_bind; [apply getChainID_emits; intros []|intros chain].
  apply emits_bind; [repeat emits_step|intros from].
  apply emits_bind; [apply emits_lift|intros data].
  apply emits_bind; [repeat emits_step|intros gasEstimate].
  apply emits_bind.
  { apply emits_bind; [intros w; exists []; by rewrite app_nil_r|intros cached].
    apply emits_bind; [destruct cached; repeat emits_step|intros nonce].
    apply emits_bind; [intros w; exists []; by rewrite app_nil_r|intros _].
    apply emits_ret. }
  intros nonce.
  apply emits_bind.
  { destruct (usesPermit target fn args); [|destruct (walletConnect signer)];
      repeat emits_step. }
  intros [message signature]. repeat emits_step.
Qed.

(** X2: without a relay configured, sendContractTransaction never asks for a
    signature, never reads or dispatches through the forwarder, and
    leaves the nonce cache untouched. *)
Theorem standard_path_never_relays `{Ext : Externals}
    (this : SdkModule) (target : BaseContract) (fn : string)
    (args : list Arg) (given : option CallOverrides) :
  relayConfigured this = false ->
  emits (fun ev => ~ relayCall ev)
        (sendContractTransaction this target fn args given)
  /\ keepsNonces (sendContractTransaction this target fn args given).
Proof.
  intros Hrelay. unfold sendContractTransaction. rewrite Hrelay. split.
  - apply emits_bind.
    + destruct given; [apply emits_ret|].
      apply getCallOverrides_emits; [intros []|intros ? ? ? []].
    + intros overrides.
      eapply emits_weaken; [|apply sendAndWaitForTransaction_emits].
      by intros [] ? ?.
  - apply keepsNonces_bind.
    + destruct given; [apply keepsNonces_ret|apply getCallOverrides_keepsNonces].
    + intros overrides. apply sendAndWaitForTransaction_keepsNonces.
Qed.

(** ** Where a gasless call can stop *)

(** The run of the relay builder, case by case on what its collaborators
    answer. *)
Lemma sendGaslessTransaction_cases `{Ext : Externals}
    (this : SdkModule) (target : BaseContract) (fn : string)
    (args : list Arg) (callOverrides : CallOverrides) (w : World) :
  sendGaslessTransaction this target fn args callOverrides w =
  match getSigner this with
  | None =>
      (Throw (InvariantError
                "Cannot execute gasless transaction without valid signer"), w)
  | Some signer =>
  match ct_provider (readOnlyContract this) with
  | None => (Throw (InvariantError "no provider to execute transaction"), w)
  | Some provider =>
  match getNetwork provider with
  | Throw e => (Throw e, logged w [EvGetNetwork])
  | Ok chain =>
  match getAddress signer with
  | Throw e => (Throw e, logged w [EvGetNetwork; EvGetAddress])
  | Ok from =>
  match encodeFunctionData (interface target) fn args with
  | Throw e => (Throw e, logged w [EvGetNetwork; EvGetAddress])
  | Ok data =>
  match estimateGas target fn args with
  | Throw e =>
      (Throw e, logged w [EvGetNetwork; EvGetAddress;
                          EvEstimateGas (ct_address target) fn args])
  | Ok gasEstimate =>
  match nonceSource (forwarderOf this provider) from w with
  | Throw e =>
      (Throw e, logged w (preparation this target fn args w provider from))
  | Ok nonce =>
  match signed this target fn args callOverrides signer chain from data
          gasEstimate nonce with
  | Throw e =>
      (Throw e,
       logged (prepared this target fn args w provider from nonce)
         (signingCalls this target fn args callOverrides signer chain from
            data gasEstimate nonce))
  | Ok (message, signature) =>
      dispatched this provider message signature
        (logged (prepared this target fn args w provider from nonce)
           (signingCalls this target fn args callOverrides signer chain from
              data gasEstimate nonce))
  end end end end end end end end.
Proof.
  destruct (getSigner this) as [signer|] eqn:Hsigner.
  2: { unfold sendGaslessTransaction. by rewrite bind_run, Hsigner. }
  destruct (ct_provider (readOnlyContract this)) as [provider|] eqn:Hprovider.
  2: { unfold sendGaslessTransaction.
       rewrite bind_run, Hsigner. cbn [invariant mret M_ret].
       rewrite bind_run. cbn [getProvider mret M_ret].
       by rewrite bind_run, Hprovider. }
  destruct (getNetwork provider) as [chain|e] eqn:Hnetwork.
  2: { unfold sendGaslessTransaction.
       rewrite bind_run, Hsigner. cbn [invariant mret M_ret].
       rewrite bind_run. cbn [getProvider mret M_ret].
       rewrite bind_run, Hprovider. cbn [invariant mret M_ret].
       rewrite bind_run. unfold getChainID at 1.
       rewrite bind_run. cbn [getProvider mret M_ret].
       rewrite bind_run, Hprovider. cbn [invariant mret M_ret].
       by rewrite call_run, Hnetwork. }
  destruct (getAddress signer) as [from|e] eqn:Haddress.
  2: { unfold sendGaslessTransaction.
       rewrite bind_run, Hsigner. cbn [invariant mret M_ret].
       rewrite bind_run. cbn [getProvider mret M_ret].
       rewrite bind_run, Hprovider. cbn [invariant mret M_ret].
       rewrite bind_run. unfold getChainID at 1.
       rewrite bind_run. cbn [getProvider mret M_ret].
       rewrite bind_run, Hprovider. cbn [invariant mret M_ret].
       rewrite call_run, Hnetwork.
       rewrite bind_run. unfold getSignerAddress at 1.
       rewrite bind_run, Hsigner. cbn [invariant mret M_ret].
       by rewrite call_run, Haddress, logged_logged. }
  destruct (encodeFunctionData (interface target) fn args)
    as [data|e] eqn:Hencode.
  2: { unfold sendGaslessTransaction.
       rewrite bind_run, Hsigner. cbn [invariant mret M_ret].
       rewrite bind_run. cbn [getProvider mret M_ret].
       rewrite bind_run, Hprovider. cbn [invariant mret M_ret].
       rewrite bind_run. unfold getChainID at 1.
       rewrite bind_run. cbn [getProvider mret M_ret].
       rewrite bind_run, Hprovider. cbn [invariant mret M_ret].
       rewrite call_run, Hnetwork.
       rewrite bind_run. unfold getSignerAddress at 1.
       rewrite bind_run, Hsigner. cbn [invariant mret M_ret].
       rewrite call_run, Haddress, logged_logged.
       rewrite bind_run. unfold lift at 1. by rewrite Hencode. }
  destruct (estimateGas target fn args) as [gasEstimate|e] eqn:Hestimate.
  2: { unfold sendGaslessTransaction.
       rewrite bind_run, Hsigner. cbn [invariant mret M_ret].
       rewrite bind_run. cbn [getProvider mret M_ret].
       rewrite bind_run, Hprovider. cbn [invariant mret M_ret].
       rewrite bind_run. unfold getChainID at 1.
       rewrite bind_run. cbn [getProvider mret M_ret].
       rewrite bind_run, Hprovider. cbn [invariant mret M_ret].
       rewrite call_run, Hnetwork.
       rewrite bind_run. unfold getSignerAddress at 1.
       rewrite bind_run, Hsigner. cbn [invariant mret M_ret].
       rewrite call_run, Haddress, logged_logged.
       rewrite bind_run. unfold lift at 1. rewrite Hencode.
       by rewrite bind_run, call_run, Hestimate, logged_logged. }
  destruct (nonceSource (forwarderOf this provider) from w)
    as [nonce|e] eqn:Hnonce.
  2: { unfold sendGaslessTransaction.
       rewrite bind_run, Hsigner. cbn [invariant mret M_ret].
       rewrite bind_run. cbn [getProvider mret M_ret].
       rewrite bind_run, Hprovider. cbn [invariant mret M_ret].
       rewrite bind_run. unfold getChainID at 1.
       rewrite bind_run. cbn [getProvider mret M_ret].
       rewrite bind_run, Hprovider. cbn [invariant mret M_ret].
       rewrite call_run, Hnetwork.
       rewrite bind_run. unfold getSignerAddress at 1.
       rewrite bind_run, Hsigner. cbn [invariant mret M_ret].
       rewrite call_run, Haddress, logged_logged.
       rewrite bind_run. unfold lift at 1. rewrite Hencode.
       rewrite bind_run, call_run, Hestimate, logged_logged.
       rewrite bind_run, getAndIncrementNonce_run.
       fold (forwarderOf this provider).
       change (nonceSource (forwarderOf this provider) from (logged w _))
         with (nonceSource (forwarderOf this provider) from w).
       rewrite Hnonce. by rewrite logged_logged. }
  rewrite (gasless_run this target fn args callOverrides w signer provider
             chain from data gasEstimate nonce) by assumption.
  by destruct (signed _ _ _ _ _ _ _ _ _ _ _) as [[message signature]|e].
Qed.

Lemma since_app w evs nonces :
  since w {| _nonces := nonces; trace := trace w ++ evs |} = evs.
Proof. unfold since; simpl. apply drop_app_length. Qed.

(** X3: a receipt comes from nowhere but the wait on the relayed hash: when
    the relay builder returns one, a single message was dispatched, the
    relay answered with a hash, and the receipt is what the provider's
    waitForTransaction resolved to for that hash, the last call made. *)
Theorem gasless_receipt_origin `{Ext : Externals}
    (this : SdkModule) (target : BaseContract) (fn : string)
    (args : list Arg) (callOverrides : CallOverrides) (w : World)
    (receipt : TransactionReceipt) :
  (sendGaslessTransaction this target fn args callOverrides w).1 = Ok receipt ->
  exists provider message signature txHash,
    ct_provider (readOnlyContract this) = Some provider
    /\ relayed (since w (sendGaslessTransaction this target fn args
                           callOverrides w).2) = [(message, signature)]
    /\ transactionRelayerSendFunction (options this) message signature
       = Ok txHash
    /\ waitForTransaction provider txHash = Ok receipt
    /\ last (since w (sendGaslessTransaction this target fn args
                        callOverrides w).2)
       = Some (EvWaitForTransaction txHash).
Proof.
  rewrite sendGaslessTransaction_cases.
  destruct (getSigner this) as [signer|]; [|discriminate].
  destruct (ct_provider (readOnlyContract this)) as [provider|]; [|discriminate].
  destruct (getNetwork provider) as [chain|]; [|discriminate].
  destruct (getAddress signer) as [from|]; [|discriminate].
  destruct (encodeFunctionData _ _ _) as [data|]; [|discriminate].
  destruct (estimateGas _ _ _) as [gasEstimate|]; [|discriminate].
  destruct (nonceSource _ _ _) as [nonce|]; [|discriminate].
  destruct (signed _ _ _ _ _ _ _ _ _ _ _) as [[message signature]|];
    [|discriminate].
  unfold dispatched.
  destruct (transactionRelayerSendFunction _ _ _) as [txHash|] eqn:Hhash;
    [|discriminate].
  simpl. intros Hreceipt.
  exists provider, message, signature, txHash.
  rewrite logged_logged, since_prepared.
  repeat split; try done.
  - by rewrite !relayed_app, relayed_preparation, relayed_asked.
  - change [EvRelaySend message signature; EvWaitForTransaction txHash]
      with ([EvRelaySend message signature] ++ [EvWaitForTransaction txHash])%list.
    by rewrite !app_assoc, last_snoc.
Qed.

Section Failures.
Context `{Ext : Externals}.
Variables (this : SdkModule) (target : BaseContract) (fn : string)
          (args : list Arg) (callOverrides : CallOverrides) (w : World).
Variables (signer : Signer) (provider : Provider).
Variables (chain : Z) (from : string).

Local Abbreviation run := (sendGaslessTransaction this target fn args callOverrides w).

Hypothesis Hsigner : getSigner this = Some signer.
Hypothesis Hprovider : ct_provider (readOnlyContract this) = Some provider.
Hypothesis Hnetwork : getNetwork provider = Ok chain.
Hypothesis Haddress : getAddress signer = Ok from.

(** X4: a call that cannot be encoded, or whose gas cannot be estimated,
    stops there with that error: the gas is not even estimated in the
    first case, and in both no nonce is taken, no signature is asked for
    and nothing is dispatched. *)
Theorem early_rejection_takes_no_nonce :
  (forall e,
     encodeFunctionData (interface target) fn args = Throw e ->
     run = (Throw e, logged w [EvGetNetwork; EvGetAddress]))
  /\ (forall data e,
        encodeFunctionData (interface target) fn args = Ok data ->
        estimateGas target fn args = Throw e ->
        run = (Throw e, logged w [EvGetNetwork; EvGetAddress;
                                  EvEstimateGas (ct_address target) fn args])
        /\ _nonces run.2 = _nonces w
        /\ signings (since w run.2) = []
        /\ relayed (since w run.2) = []).
Proof.
  split.
  - intros e Hencode. rewrite sendGaslessTransaction_cases.
    by rewrite Hsigner, Hprovider, Hnetwork, Haddress, Hencode.
  - intros data e Hencode Hestimate. rewrite sendGaslessTransaction_cases.
    rewrite Hsigner, Hprovider, Hnetwork, Haddress, Hencode, Hestimate.
    simpl. by rewrite since_logged.
Qed.

End Failures.

Section LateFailures.
Context `{Ext : Externals}.
Variables (this : SdkModule) (target : BaseContract) (fn : string)
          (args : list Arg) (callOverrides : CallOverrides) (w : World).
Variables (signer : Signer) (provider : Provider).
Variables (chain : Z) (from data : string) (gasEstimate nonce : Z).

Local Abbreviation run := (sendGaslessTransaction this target fn args callOverrides w).
Local Abbreviation asked :=
  (signingCalls this target fn args callOverrides signer chain from data
     gasEstimate nonce).
Local Abbreviation handed :=
  (signed this target fn args callOverrides signer chain from data
     gasEstimate nonce).

Hypothesis Hsigner : getSigner this = Some signer.
Hypothesis Hprovider : ct_provider (readOnlyContract this) = Some provider.
Hypothesis Hnetwork : getNetwork provider = Ok chain.
Hypothesis Haddress : getAddress signer = Ok from.
Hypothesis Hencode : encodeFunctionData (interface target) fn args = Ok data.
Hypothesis Hestimate : estimateGas target fn args = Ok gasEstimate.
Hypothesis Hnonce : nonceSource (forwarderOf this provider) from w = Ok nonce.

(** X5: when the signature is refused, on the permit path or on the generic
    one, the call ends with that refusal: the one signing request is the
    last call made and nothing reaches the relay. *)
Theorem refused_signature_dispatches_nothing e :
  handed = Throw e ->
  run.1 = Throw e
  /\ relayed (since w run.2) = []
  /\ signings (since w run.2) = asked
  /\ last (since w run.2) = last asked.
Proof.
  intros Hrefused.
  pose proof (gasless_run this target fn args callOverrides w signer provider
                chain from data gasEstimate nonce Hsigner Hprovider Hnetwork
                Haddress Hencode Hestimate Hnonce) as Hrun.
  rewrite Hrefused in Hrun. rewrite Hrun. simpl.
  rewrite since_prepared, relayed_app, relayed_preparation, relayed_asked,
    signings_app, signings_preparation, signings_asked.
  repeat split; try done.
  unfold signingCalls. destruct (usesPermit target fn args);
    by rewrite last_snoc.
Qed.

(** X6: when the relay refuses the signed message, the call ends with that
    refusal and the provider is never asked to wait: the dispatch is the
    last call made. *)
Theorem refused_dispatch_is_not_awaited message signature e :
  relayed (since w run.2) = [(message, signature)] ->
  transactionRelayerSendFunction (options this) message signature = Throw e ->
  run.1 = Throw e
  /\ last (since w run.2) = Some (EvRelaySend message signature).
Proof.
  intros Hrelayed Hrefused.
  erewrite relayed_run in Hrelayed by eassumption.
  erewrite gasless_run by eassumption.
  destruct handed as [[message' signature']|e']; [|discriminate].
  injection Hrelayed as -> ->.
  unfold dispatched. rewrite Hrefused. simpl.
  split; [done|]. rewrite logged_logged, since_prepared.
  by rewrite !app_assoc, last_snoc.
Qed.

(** X7: the request that is dispatched on the generic path, field by field:
    the signer's address, the module's own address whatever the contract
    called, the overrides' value or 0, the forwarded gas and the nonce in
    decimal, and the encoded call. *)
Theorem dispatched_request_fields signature :
  usesPermit target fn args = false ->
  signingAnswer this callOverrides signer chain from data gasEstimate nonce
    = Ok signature ->
  forwardRequests (since w run.2)
  = [{| fr_from := from;
        fr_to := address this;
        fr_value := BigNumber_toString
                      (match ov_value callOverrides with
                       | Some value => value
                       | None => 0
                       end);
        fr_gas := BigNumber_toString (forwardedGas gasEstimate);
        fr_nonce := BigNumber_toString nonce;
        fr_data := data |}].
Proof.
  intros Hpath Hsig. unfold forwardRequests.
  erewrite generic_forward_requests by eassumption. simpl.
  unfold requestOf. by destruct (ov_value callOverrides).
Qed.

End LateFailures.

(** ** Calls that bring no overrides *)

Section NoOverrides.
Context `{Ext : Externals}.
Variables (this : SdkModule) (target : BaseContract) (fn : string)
          (args : list Arg) (w : World).
Variables (signer : Signer) (provider : Provider) (quote : option GasPrice).
Variables (chain : Z) (from data : string) (gasEstimate nonce : Z).

Local Abbreviation speed := (gasSpeed (options this)).
Local Abbreviation cap := (maxGasPriceInGwei (options this)).
Local Abbreviation looked := [EvGetNetwork; EvGasPriceOracle chain speed cap].

Hypothesis Hrelay : relayConfigured this = true.
Hypothesis Hsigner : getSigner this = Some signer.
Hypothesis Hprovider : ct_provider (readOnlyContract this) = Some provider.
Hypothesis Hnetwork : getNetwork provider = Ok chain.
Hypothesis Horacle : getGasPriceForChain chain speed cap = Ok quote.
Hypothesis Haddress : getAddress signer = Ok from.
Hypothesis Hencode : encodeFunctionData (interface target) fn args = Ok data.
Hypothesis Hestimate : estimateGas target fn args = Ok gasEstimate.
Hypothesis Hnonce : nonceSource (forwarderOf this provider) from w = Ok nonce.

Lemma computedOverrides_value : ov_value (computedOverrides quote) = None.
Proof.
  unfold computedOverrides.
  by destruct quote as [price|]; [destruct (gasPrice_truthy price)|].
Qed.

(** X8: a relayed call made without overrides forwards no value: whatever
    the gas-price oracle quotes, the quote only makes a gasPrice override,
    which the forward request does not carry, and the request's value is
    0.  The chain id is looked up twice, once for the quote and once for
    the signing domain. *)
Theorem relayed_call_without_overrides_forwards_no_value signature :
  usesPermit target fn args = false ->
  signingAnswer this (computedOverrides quote) signer chain from data
    gasEstimate nonce = Ok signature ->
  let w' := (sendContractTransaction this target fn args None w).2 in
  fr_value <$> forwardRequests (since w w') = ["0"]
  /\ List.filter (fun ev => match ev with EvGetNetwork => true | _ => false end)
       (since w w') = [EvGetNetwork; EvGetNetwork].
Proof.
  intros Hpath Hsig w'. unfold w', sendContractTransaction.
  rewrite bind_run.
  rewrite (getCallOverrides_run this w provider chain quote) by assumption.
  rewrite Hrelay.
  assert (Hnonce' : nonceSource (forwarderOf this provider) from
                      (logged w looked) = Ok nonce) by exact Hnonce.
  erewrite gasless_run by eassumption.
  unfold signed. rewrite Hpath, Hsig. unfold dispatched.
  assert (Hsince : forall evs,
            since w (logged (logged (prepared this target fn args
                                       (logged w looked) provider from nonce)
                               (signingCalls this target fn args
                                  (computedOverrides quote) signer chain from
                                  data gasEstimate nonce)) evs)
            = (looked ++ preparation this target fn args (logged w looked)
                           provider from
                 ++ signingCalls this target fn args (computedOverrides quote)
                      signer chain from data gasEstimate nonce ++ evs)%list).
  { intros evs. unfold since, logged, prepared; simpl.
    rewrite <- !app_assoc. simpl. by rewrite drop_app_length. }
  destruct (transactionRelayerSendFunction _ _ _); simpl snd;
    rewrite Hsince; unfold forwardRequests;
    rewrite !relayed_app, relayed_preparation, relayed_asked,
      !List.filter_app; simpl;
    unfold requestOf; rewrite computedOverrides_value; simpl;
    unfold preparation, nonceReads, signingCalls, signingCall;
    rewrite Hpath;
    destruct (_nonces (logged w looked) !! from), (walletConnect signer);
    done.
Qed.

End NoOverrides.

(** ** Numbers and strings *)

(** X9: the forwarded gas limit is never below 50000 and never below twice
    the estimate, but it does not grow with the estimate: an estimate
    just under 25000 forwards ten times what one of 25000 does. *)
Theorem forwardedGas_bounds e :
  50000 <= forwardedGas e
  /\ 2 * e <= forwardedGas e
  /\ (e < 25000 -> forall e', 25000 <= e' < 250000 ->
      forwardedGas e' < forwardedGas e).
Proof.
  unfold forwardedGas.
  destruct (Z.ltb_spec e 25000) as [Hlow|Hhigh].
  - repeat split; try lia.
    intros _ e' He'. destruct (Z.ltb_spec e' 25000); lia.
  - repeat split; try lia.
Qed.

Lemma length_append (a b : string) :
  String.length (a +:+ b) = (String.length a + String.length b)%nat.
Proof. induction a as [|c a IH]; simpl; [done|by rewrite IH]. Qed.

Lemma length_substring_from n (a : string) :
  String.length (substring_from n a) = (String.length a - n)%nat.
Proof.
  revert a. induction n as [|n IH]; intros [|c a]; simpl; auto.
Qed.

Lemma toLowerCase_length (a : string) :
  String.length (toLowerCase a) = String.length a.
Proof. induction a as [|c a IH]; simpl; [done|by rewrite IH]. Qed.

Lemma toString16_digits v :
  (16 <= v < 256 -> String.length (toString16 v) = 2%nat)
  /\ (0 <= v < 16 -> String.length (toString16 v) = 1%nat).
Proof.
  assert (Hall : forallb (fun n => Nat.eqb (String.length (toString16 (Z.of_nat n)))
                                    (if (n <? 16)%nat then 1 else 2))
                         (seq 0 256) = true) by (vm_compute; reflexivity).
  rewrite forallb_forall in Hall.
  split; intros Hv; specialize (Hall (Z.to_nat v));
    rewrite Z2Nat.id in Hall by lia.
  - assert (Hge : (Z.to_nat v <? 16)%nat = false) by (apply Nat.ltb_ge; lia).
    rewrite Hge in Hall. apply Nat.eqb_eq, Hall, in_seq. lia.
  - assert (Hlt : (Z.to_nat v <? 16)%nat = true) by (apply Nat.ltb_lt; lia).
    rewrite Hlt in Hall. apply Nat.eqb_eq, Hall, in_seq. lia.
Qed.

(** X10: the packed permit signature of a 32-byte r and a 32-byte s, each
    with its 0x prefix, is 0x and 65 bytes (130 digits) exactly when v
    takes two hexadecimal digits, from 16 to 255; a v below 16 gives 129
    digits. *)
Theorem packed_signature_length (permit : ERC2612Permit) :
  String.length (permit_r permit) = 66%nat ->
  String.length (permit_s permit) = 66%nat ->
  (16 <= permit_v permit < 256 -> String.length (packed permit) = 132%nat)
  /\ (0 <= permit_v permit < 16 -> String.length (packed permit) = 131%nat).
Proof.
  intros Hr Hs. unfold packed.
  rewrite !length_append, length_substring_from, Hr, Hs.
  destruct (toString16_digits (permit_v permit)) as [Hbyte Hnibble].
  split; intros Hv; [rewrite Hbyte|rewrite Hnibble]; done.
Qed.

(** ** Event logs and the ids of a batch *)

Section ParsingFacts.
Context `{Bind : Bindings}.
Variable this : SdkModule.

Local Abbreviation decoded eventName log :=
  (decodeEventLog (interface (contract this)) eventName
     (log_data log) (log_topics log)).

Lemma firstDecoded_Some eventName all event :
  firstDecoded this eventName all = Some event <->
  exists before log after,
    all = (before ++ log :: after)%list
    /\ Forall (fun earlier => exists e, decoded eventName earlier = Throw e) before
    /\ decoded eventName log = Ok event.
Proof.
  induction all as [|head rest IH]; simpl.
  - split; [discriminate|]. by intros ([|? ?] & ? & ? & ? & _).
  - destruct (decoded eventName head) as [event'|e] eqn:Hhead.
    + split.
      * intros [= <-]. exists [], head, rest. by repeat split.
      * intros ([|first before] & log & after & Hall & Hbefore & Hlog);
          simpl in Hall; injection Hall as -> ->.
        -- congruence.
        -- apply Forall_cons in Hbefore as [[e He] _]. congruence.
    + rewrite IH. split.
      * intros (before & log & after & -> & Hbefore & Hlog).
        exists (head :: before), log, after. repeat split; [|done].
        constructor; [by exists e|done].
      * intros ([|first before] & log & after & Hall & Hbefore & Hlog);
          simpl in Hall; injection Hall as -> ->.
        -- congruence.
        -- apply Forall_cons in Hbefore as [_ Hbefore].
           by exists before, log, after.
Qed.

Lemma firstDecoded_None eventName all :
  firstDecoded this eventName all = None <->
  Forall (fun log => exists e, decoded eventName log = Throw e) all.
Proof.
  induction all as [|head rest IH]; simpl.
  - by split.
  - destruct (decoded eventName head) as [event'|e] eqn:Hhead.
    + split; [discriminate|].
      intros [[e He] _]%Forall_cons. congruence.
    + rewrite IH. split.
      * intros Hrest. constructor; [by exists e|done].
      * by intros [_ Hrest]%Forall_cons.
Qed.

(** X11: parseEventLogs returns the event of the first log that decodes under
    the given name, skipping the logs before it that do not; it returns
    null exactly when there are no logs at all or none of them decodes.
    A log that fails to decode never makes it throw. *)
Theorem parseEventLogs_first_decodable eventName given :
  (forall event,
     parseEventLogs this eventName given = Some event <->
     exists before log after,
       given = Some (before ++ log :: after)%list
       /\ Forall (fun earlier => exists e, decoded eventName earlier = Throw e)
                 before
       /\ decoded eventName log = Ok event)
  /\ (parseEventLogs this eventName given = None <->
      given = None
      \/ exists all,
           given = Some all
           /\ Forall (fun log => exists e, decoded eventName log = Throw e) all).
Proof.
  destruct given as [all|]; simpl; split.
  - intros event. rewrite firstDecoded_Some. split.
    + intros (before & log & after & -> & Hbefore & Hlog).
      by exists before, log, after.
    + intros (before & log & after & [= ->] & Hbefore & Hlog).
      by exists before, log, after.
  - rewrite firstDecoded_None. split.
    + intros Hall. right. by exists all.
    + by intros [|(all' & [= <-] & Hall)].
  - intros event. split; [discriminate|].
    by intros (? & ? & ? & ? & _).
  - split; [by left|done].
Qed.

End ParsingFacts.

Lemma tokenIdsFrom_seqZ i endingIndex :
  tokenIdsFrom i endingIndex
  = BigNumber_toString <$> seqZ i (endingIndex + 1 - i).
Proof.
  funelim (tokenIdsFrom i endingIndex).
  - rewrite seqZ_cons by lia. simpl. f_equal.
    replace (Z.succ i) with (i + 1) by lia.
    replace (Z.pred (endingIndex + 1 - i)) with (endingIndex + 1 - (i + 1)) by lia.
    assumption.
  - unfold seqZ.
    by replace (Z.to_nat (endingIndex + 1 - i)) with 0%nat by lia.
Qed.

(** X12: the ids of a batch are the decimal numbers from the starting index
    to the ending index, both included, in increasing order and without
    repetition; there are none when the ending index is below the
    starting one. *)
Theorem tokenIdsFrom_range startingIndex endingIndex :
  tokenIdsFrom startingIndex endingIndex
    = BigNumber_toString <$> seqZ startingIndex (endingIndex + 1 - startingIndex)
  /\ length (tokenIdsFrom startingIndex endingIndex)
     = Z.to_nat (endingIndex + 1 - startingIndex)
  /\ NoDup (tokenIdsFrom startingIndex endingIndex)
  /\ (endingIndex < startingIndex -> tokenIdsFrom startingIndex endingIndex = []).
Proof.
  rewrite tokenIdsFrom_seqZ. split; [done|split; [|split]].
  - by rewrite length_fmap, length_seqZ.
  - apply NoDup_fmap_2; [|apply NoDup_seqZ].
    unfold BigNumber_toString. apply _.
  - intros Hempty. unfold seqZ.
    by replace (Z.to_nat (endingIndex + 1 - startingIndex)) with 0%nat by lia.
Qed.

Lemma Promise_all_run {A B} (member : B -> M A) (value : B -> A) items w :
  (forall item, item ∈ items -> member item w = (Ok (value item), w)) ->
  Promise_all (map member items) w = (Ok (map value items), w).
Proof.
  induction items as [|item rest IH]; intros Hall; simpl; [done|].
  rewrite bind_run, Hall by left.
  rewrite bind_run, IH; [done|].
  intros other Hother. apply Hall. by right.
Qed.

(** ** Batches, listings and holdings of a drop *)

Section DropFacts.
Context `{Ext : Externals} `{Bind : Bindings}.
Variables (this : SdkModule) (w : World).

Local Abbreviation drop := (readOnlyContract this).

Lemma get_run tokenId found :
  getTokenMetadata drop tokenId = Ok found ->
  BundleDrop.get this tokenId w
  = (Ok {| BundleDrop.supply := BundleDrop.supplyOrZero this tokenId;
           BundleDrop.metadata := found |}, w).
Proof.
  intros Hfound. unfold BundleDrop.get, read, lift.
  rewrite bind_run. cbn [mret M_ret]. by rewrite bind_run, Hfound.
Qed.

Lemma toNumber_fits x : 0 <= x < 2 ^ 32 -> toNumber x = Ok x /\ Array_ x = Ok (Z.to_nat x).
Proof.
  intros Hx. unfold toNumber, Array_.
  destruct (Z.ltb_spec (Z.abs x) (2 ^ 53)); [|lia].
  destruct (Z.leb_spec 0 x); [|lia].
  destruct (Z.ltb_spec x (2 ^ 32)); [done|lia].
Qed.

(** X13: createBatch returns the decimal ids from the starting to the ending
    index of the LazyMintedTokens event in the receipt of its lazyMint
    transaction, which is sent for as many tokens as there are
    metadatas.  When the receipt carries no log that decodes as that
    event, createBatch throws a TypeError after the transaction has gone
    through. *)
Theorem createBatch_reads_ids_off_the_receipt
    (metadatas : list MetadataURIOrObject) (next : Z) (baseUri : string)
    (receipt : TransactionReceipt) (w' : World) :
  nextTokenIdToMint drop = Ok next ->
  Z.abs next < 2 ^ 53 ->
  uploadMetadataBatch metadatas (address this) next = Ok baseUri ->
  sendTransaction this "lazyMint"
    [ArgNumber (Z.of_nat (length metadatas)); ArgBytes baseUri] None w
    = (Ok receipt, w') ->
  (forall startingIndex endingIndex others,
     parseEventLogs this "LazyMintedTokens" (logs receipt)
       = Some (ArgNumber startingIndex :: ArgNumber endingIndex :: others) ->
     BundleDrop.createBatch this metadatas w
     = (Ok (BigNumber_toString
              <$> seqZ startingIndex (endingIndex + 1 - startingIndex)), w'))
  /\ (parseEventLogs this "LazyMintedTokens" (logs receipt) = None ->
      BundleDrop.createBatch this metadatas w
      = (Throw (Rejected "TypeError" "event is not iterable"), w')).
Proof.
  intros Hnext Hfits Hupload Hsent.
  assert (Hprefix : forall k : TransactionReceipt -> M (list string),
            (next' ← read (nextTokenIdToMint drop);
             start ← lift (toNumber next');
             baseUri' ← read (uploadMetadataBatch metadatas (address this) start);
             receipt' ← sendTransaction this "lazyMint"
                          [ArgNumber (Z.of_nat (length metadatas));
                           ArgBytes baseUri'] None;
             k receipt') w = k receipt w').
  { intros k. unfold read, lift. rewrite bind_run, Hnext.
    rewrite bind_run. unfold toNumber.
    destruct (Z.ltb_spec (Z.abs next) (2 ^ 53)); [|lia].
    by rewrite bind_run, Hupload, bind_run, Hsent. }
  split.
  - intros startingIndex endingIndex others Hevent.
    unfold BundleDrop.createBatch. rewrite Hprefix, Hevent.
    by rewrite tokenIdsFrom_seqZ.
  - intros Hevent. unfold BundleDrop.createBatch. by rewrite Hprefix, Hevent.
Qed.

(** X14: getAll lists one entry per id below nextTokenIdToMint, in order; a
    token whose supply cannot be read is listed with supply 0 rather
    than failing the listing. *)
Theorem getAll_lists_every_minted_id (next : Z) (found : nat -> NFTMetadata) :
  nextTokenIdToMint drop = Ok next ->
  0 <= next < 2 ^ 32 ->
  (forall i, (i < Z.to_nat next)%nat ->
     getTokenMetadata drop (pretty (Z.of_nat i)) = Ok (found i)) ->
  BundleDrop.getAll this w
  = (Ok (map (fun i => {| BundleDrop.supply :=
                            BundleDrop.supplyOrZero this (pretty (Z.of_nat i));
                          BundleDrop.metadata := found i |})
             (seq 0 (Z.to_nat next))), w).
Proof.
  intros Hnext Hfits Hfound.
  destruct (toNumber_fits next Hfits) as [Hnumber Harray].
  unfold BundleDrop.getAll, read, lift, keys.
  rewrite bind_run, Hnext, bind_run, Hnumber, bind_run, Harray.
  apply (Promise_all_run (fun i => BundleDrop.get this (pretty (Z.of_nat i)))).
  intros i Hi%list_elem_of_In%in_seq. apply get_run, Hfound. lia.
Qed.

End DropFacts.

Lemma ownedBalances_lookup (balances : list Z) (tokenId : nat) (balance : Z) :
  (tokenId, balance) ∈ BundleDrop.ownedBalances balances <->
  balances !! tokenId = Some balance /\ 0 < balance.
Proof.
  unfold BundleDrop.ownedBalances.
  rewrite list_elem_of_In, filter_In, <- list_elem_of_In.
  rewrite elem_of_lookup_imap. simpl. rewrite Z.ltb_lt. split.
  - intros [(i & b & [= -> ->] & Hb) Hpositive]. done.
  - intros [Hb Hpositive]. split; [|done]. by exists tokenId, balance.
Qed.

(** X15: the balances kept by getOwned are exactly the positive ones, each
    with its position in the answer of balanceOfBatch as token id, and
    they come in increasing order of token id. *)
Theorem ownedBalances_are_the_positive_ones (balances : list Z) :
  (forall tokenId balance,
     (tokenId, balance) ∈ BundleDrop.ownedBalances balances <->
     balances !! tokenId = Some balance /\ 0 < balance)
  /\ StronglySorted lt (BundleDrop.ownedBalances balances).*1.
Proof.
  split.
  - intros tokenId balance. apply ownedBalances_lookup.
  - unfold BundleDrop.ownedBalances.
    assert (Hshift : forall (offset : nat) bs,
              StronglySorted lt
                (List.filter (fun entry : nat * Z => (0 <? entry.2)%Z)
                             (imap (fun i b => ((offset + i)%nat, b)) bs)).*1
              /\ Forall (fun i => (offset <= i)%nat)
                   (List.filter (fun entry : nat * Z => (0 <? entry.2)%Z)
                                (imap (fun i b => ((offset + i)%nat, b)) bs)).*1).
    { intros offset bs. revert offset.
      induction bs as [|b bs IH]; intros offset; simpl.
      - split; constructor.
      - assert (Himap : imap ((fun i b0 => ((offset + i)%nat, b0)) ∘ S) bs
                        = imap (fun i b0 => ((S offset + i)%nat, b0)) bs).
        { apply imap_ext. intros i x _. simpl. f_equal. lia. }
        rewrite Himap. destruct (IH (S offset)) as [Hsorted Hbound].
        destruct (0 <? b)%Z; simpl.
        + split.
          * constructor; [done|].
            eapply Forall_impl; [exact Hbound|]. simpl. intros; lia.
          * constructor; [lia|].
            eapply Forall_impl; [exact Hbound|]. simpl. intros; lia.
        + split; [done|].
          eapply Forall_impl; [exact Hbound|]. simpl. intros; lia. }
    apply (Hshift 0%nat).
Qed.

Section HoldingsFacts.
Context `{Ext : Externals} `{Bind : Bindings}.
Variables (this : SdkModule) (w : World).

Local Abbreviation drop := (readOnlyContract this).


(** X17: transfer and burn act on the signer's own address: it is the first
    argument of the safeTransferFrom or burn transaction they send.
    Without a signer they throw an InvariantError and send nothing. *)
Theorem transfer_and_burn_act_for_the_signer
    (to : string) (tokenId amount : Z) (data : option Arg) :
  (forall signer from,
     getSigner this = Some signer ->
     getAddress signer = Ok from ->
     BundleDrop.transfer this to tokenId amount data w
     = sendTransaction this "safeTransferFrom"
         [ArgAddress from; ArgAddress to; ArgNumber tokenId; ArgNumber amount;
          default (ArgBytes "0x00") data] None (logged w [EvGetAddress])
     /\ BundleDrop.burn this tokenId amount w
        = sendTransaction this "burn"
            [ArgAddress from; ArgNumber tokenId; ArgNumber amount] None
            (logged w [EvGetAddress]))
  /\ (getSigner this = None ->
      let failure : result TransactionReceipt :=
        Throw (InvariantError "Cannot get signer address without valid signer") in
      BundleDrop.transfer this to tokenId amount data w = (failure, w)
      /\ BundleDrop.burn this tokenId amount w = (failure, w)).
Proof.
  split.
  - intros signer from Hsigner Haddress.
    unfold BundleDrop.transfer, BundleDrop.burn, getSignerAddress.
    rewrite !bind_run, Hsigner. cbn [invariant mret M_ret].
    by rewrite call_run, Haddress.
  - intros Hnone failure.
    unfold BundleDrop.transfer, BundleDrop.burn, getSignerAddress.
    by rewrite !bind_run, Hnone.
Qed.

End HoldingsFacts.

(** ** Roles *)

Section RoleFacts.
Context `{Ext : Externals} `{Bind : Bindings}.
Variables (this : SdkModule) (roles : list string) (w : World).

Lemma includes_elem role : includes roles role = true <-> role ∈ roles.
Proof.
  unfold includes. rewrite existsb_exists. split.
  - intros (other & Hin & ->%String.eqb_eq). by apply list_elem_of_In.
  - intros Hin. exists role. split; [by apply list_elem_of_In|].
    apply String.eqb_refl.
Qed.

(** X18: a role the module does not support is refused by grantRole,
    revokeRole and getRoleMembers alike with an InvariantError naming
    the role, before the signer, the contract or the oracle is asked
    anything. *)
Theorem unsupported_role_is_refused_first (role address : string) :
  role ∉ roles ->
  let refusal (A : Type) : result A * World :=
    (Throw (InvariantError
              ("this module does not support the " +:+ dquote +:+ role
                 +:+ dquote +:+ " role")), w) in
  grantRole this roles role address w = refusal TransactionReceipt
  /\ revokeRole this roles role address w = refusal TransactionReceipt
  /\ getRoleMembers this roles role w = refusal (list string).
Proof.
  intros Hrole refusal.
  assert (Hincludes : includes roles role = false).
  { destruct (includes roles role) eqn:Hin; [|done].
    by apply includes_elem in Hin. }
  unfold grantRole, revokeRole, getRoleMembers.
  by rewrite !bind_run, Hincludes.
Qed.

(** X19: revokeRole on the signer's own address, in whatever letter case it
    is written, sends renounceRole; on any other address it sends
    revokeRole.  Either way the arguments are the role's hash and the
    address as given. *)
Theorem revokeRole_renounces_for_the_signer
    (role address : string) (signer : Signer) (from : string) :
  role ∈ roles ->
  getSigner this = Some signer ->
  getAddress signer = Ok from ->
  (toLowerCase from = toLowerCase address ->
   revokeRole this roles role address w
   = sendTransaction this "renounceRole"
       [ArgBytes (getRoleHash role); ArgAddress address] None
       (logged w [EvGetAddress]))
  /\ (toLowerCase from <> toLowerCase address ->
      revokeRole this roles role address w
      = sendTransaction this "revokeRole"
          [ArgBytes (getRoleHash role); ArgAddress address] None
          (logged w [EvGetAddress])).
Proof.
  intros Hrole%includes_elem Hsigner Haddress.
  unfold revokeRole, getRevokeRoleFunctionName, getSignerAddress.
  rewrite !bind_run, Hrole. cbn [holds invariant mret M_ret].
  rewrite !bind_run, Hsigner. cbn [invariant mret M_ret].
  rewrite call_run, Haddress.
  split; intros Hcase.
  - apply String.eqb_eq in Hcase. by rewrite Hcase.
  - apply String.eqb_neq in Hcase. by rewrite Hcase.
Qed.

Variable members : string -> list string.

Hypothesis Hcount : forall role, role ∈ roles ->
  getRoleMemberCount (contract this) (getRoleHash role)
  = Ok (Z.of_nat (length (members role))).
Hypothesis Hsize : forall role, role ∈ roles ->
  Z.of_nat (length (members role)) < 2 ^ 32.
Hypothesis Hmember : forall role i member, role ∈ roles ->
  members role !! i = Some member ->
  getRoleMember (contract this) (getRoleHash role) (Z.of_nat i) = Ok member.

Lemma getRoleMembers_run role w1 :
  role ∈ roles ->
  getRoleMembers this roles role w1 = (Ok (members role), w1).
Proof.
  intros Hrole. unfold getRoleMembers, read, lift, keys.
  rewrite bind_run. rewrite (proj2 (includes_elem role) Hrole).
  cbn [holds invariant mret M_ret].
  destruct (toNumber_fits (Z.of_nat (length (members role))))
    as [Hnumber Harray]; [specialize (Hsize role Hrole); lia|].
  rewrite bind_run, Hcount, bind_run, Hnumber, bind_run, Harray by done.
  rewrite Nat2Z.id.
  rewrite (Promise_all_run _ (fun i => default "" (members role !! i))).
  - f_equal. f_equal. apply list_eq. intros i.
    rewrite list_lookup_fmap.
    destruct (members role !! i) as [member|] eqn:Hi.
    + rewrite lookup_seq_lt by (by eapply lookup_lt_Some). simpl.
      by rewrite Hi.
    + rewrite lookup_seq_ge by (by apply lookup_ge_None). done.
  - intros i Hi%list_elem_of_In%in_seq.
    destruct (lookup_lt_is_Some_2 (members role) i) as [member Hi']; [lia|].
    rewrite Hi'. simpl. unfold lift. by rewrite (Hmember role i member).
Qed.

Lemma collectRoleMembers_run remaining collected w1 :
  (forall role, role ∈ remaining -> role ∈ roles) ->
  exists result,
    collectRoleMembers this roles remaining collected w1 = (Ok result, w1)
    /\ forall role,
         result !! role
         = if bool_decide (role ∈ remaining) then Some (members role)
           else collected !! role.
Proof.
  revert collected.
  induction remaining as [|first rest IH]; intros collected Hsub; simpl.
  - exists collected. split; [done|]. intros role.
    first [done|by rewrite bool_decide_eq_false_2 by apply not_elem_of_nil].
  - rewrite bind_run, getRoleMembers_run by (apply Hsub; left).
    destruct (IH (<[first := members first]> collected))
      as (result & Hrun & Hlookup).
    { intros role Hrole. apply Hsub. by right. }
    exists result. split; [done|]. intros role. rewrite Hlookup.
    destruct (decide (role ∈ rest)) as [Hin|Hout].
    + rewrite !bool_decide_eq_true_2; [done|by right|done].
    + rewrite (bool_decide_eq_false_2 _ Hout).
      destruct (decide (role = first)) as [->|Hne].
      * rewrite bool_decide_eq_true_2 by left. apply lookup_insert_eq.
      * rewrite bool_decide_eq_false_2.
        -- by apply lookup_insert_ne.
        -- intros [?|?]%elem_of_cons; done.
Qed.

(** X20: getAllRoleMembers answers with an object that has exactly the
    module's roles as keys, each with the members the contract lists for
    it: as many as getRoleMemberCount says, read by index.  A module
    without roles is refused with an InvariantError. *)
Theorem getAllRoleMembers_has_every_role :
  (roles <> [] ->
   exists result,
     getAllRoleMembers this roles w = (Ok result, w)
     /\ forall role,
          result !! role
          = if bool_decide (role ∈ roles) then Some (members role) else None)
  /\ (roles = [] ->
      getAllRoleMembers this roles w
      = (Throw (InvariantError "this module has no support for roles"), w)).
Proof.
  split.
  - intros Hroles. unfold getAllRoleMembers.
    assert (Hlength : Nat.eqb (length roles) 0 = false).
    { apply Nat.eqb_neq. by intros Hnil%nil_length_inv. }
    rewrite bind_run, Hlength.
    cbn [negb holds invariant mret M_ret].
    destruct (collectRoleMembers_run roles ∅ w) as (result & Hrun & Hlookup);
      [done|].
    exists result. split; [done|]. intros role. rewrite Hlookup.
    by rewrite lookup_empty.
  - intros Hroles. unfold getAllRoleMembers. by rewrite Hroles.
Qed.

End RoleFacts.

(** ** Existence and metadata *)

Lemma ret_bind {A B} (a : A) (f : A -> M B) w : (mret a ≫= f) w = f a w.
Proof. by rewrite bind_run. Qed.




(** X21: getMetadata and setMetadata refuse with an InvariantError when the
    module has no provider, or when no contract is deployed at the
    module's address; setMetadata then has uploaded nothing and sent no
    transaction. *)
Theorem metadata_needs_a_deployed_contract `{Ext : Externals} `{Bind : Bindings}
    (this : SdkModule) (metadata : MetadataURIOrObject) (w : World) :
  (ct_provider (readOnlyContract this) = None ->
   getMetadata this w = (Throw (InvariantError "exists() -- No Provider"), w)
   /\ setMetadata this metadata w
      = (Throw (InvariantError "exists() -- No Provider"), w))
  /\ (forall provider,
        ct_provider (readOnlyContract this) = Some provider ->
        isContract provider (address this) = Ok false ->
        getMetadata this w
        = (Throw (InvariantError "contract does not exist"), w)
        /\ setMetadata this metadata w
           = (Throw (InvariantError "contract does not exist"), w)).
Proof.
  split.
  - intros Hnone. unfold getMetadata, setMetadata, exists_, getProvider.
    rewrite !bind_run. cbn [mret M_ret]. by rewrite !bind_run, Hnone.
  - intros provider Hprovider Hempty.
    unfold getMetadata, setMetadata, exists_, getProvider, read, lift.
    rewrite !bind_run. cbn [mret M_ret].
    rewrite !bind_run, Hprovider. cbn [invariant mret M_ret].
    by rewrite Hempty.
Qed.

(** ** Claiming from a drop *)

Section ClaimFacts.
Context `{Ext : Externals} `{Bind : Bindings}.
Variables (this : SdkModule) (w : World).
Variables (tokenId quantity : Z) (given : option (list string)).
Variables (index : Z) (pm : ClaimConditionStruct) (cv : CurrencyValue).
Variables (provider : Provider) (chain : Z) (quote : option GasPrice).
Variables (signer : Signer) (from : string).
Variable metadata : option ContractMetadata.

Local Abbreviation drop := (readOnlyContract this).
Local Abbreviation speed := (gasSpeed (options this)).
Local Abbreviation cap := (maxGasPriceInGwei (options this)).
Local Abbreviation proofs := (default [Claiming.zeroBytes32] given).
Local Abbreviation total := (cs_pricePerToken pm * quantity).
Local Abbreviation erc20 := (ERC20__factory_connect (cs_currency pm)).

Hypothesis Hindex : getIndexOfActiveCondition drop tokenId = Ok index.
Hypothesis Hcondition : getClaimConditionAtIndex drop tokenId index = Ok pm.
Hypothesis Hcurrency :
  getCurrencyValue (cs_currency pm) (cs_pricePerToken pm) = Ok cv.
Hypothesis Hstart : Z.abs (cs_startTimestamp pm) < 2 ^ 53.
Hypothesis Hprovider : ct_provider drop = Some provider.
Hypothesis Hnetwork : getNetwork provider = Ok chain.
Hypothesis Horacle : getGasPriceForChain chain speed cap = Ok quote.
Hypothesis Hsigner : getSigner this = Some signer.
Hypothesis Haddress : getAddress signer = Ok from.
Hypothesis Hdeployed : isContract provider (address this) = Ok true.
Hypothesis Hmetadata : getContractMetadata provider (address this) = Ok metadata.

(** The world once the condition, the overrides, the signer's address
    and the metadata are known. *)
Local Abbreviation informed :=
  (logged w [EvGetNetwork; EvGasPriceOracle chain speed cap; EvGetAddress]).

(** The claim transaction, with the proofs and the overrides it ends up
    with. *)
Local Abbreviation claimWith used overrides :=
  (sendTransaction this "claim"
     [ArgNumber tokenId; ArgNumber quantity; ArgList used] (Some overrides)
   ≫= fun _ => mret tt).

Lemma getActiveClaimCondition_run w1 :
  exists condition,
    Claiming.getActiveClaimCondition this tokenId w1 = (Ok condition, w1)
    /\ Claiming.merkleRoot condition = cs_merkleRoot pm
    /\ Claiming.pricePerToken condition = cs_pricePerToken pm
    /\ Claiming.currency condition = cs_currency pm
    /\ Claiming.availableSupply condition
       = BigNumber_toString (cs_maxClaimableSupply pm - cs_supplyClaimed pm).
Proof.
  unfold Claiming.getActiveClaimCondition,
    Claiming.transformResultToClaimCondition, read, lift.
  rewrite bind_run, Hindex, bind_run, Hcondition, bind_run, Hcurrency.
  rewrite bind_run. unfold toNumber.
  destruct (Z.ltb_spec (Z.abs (cs_startTimestamp pm)) (2 ^ 53)); [|lia].
  eexists. split; [reflexivity|]. by repeat split.
Qed.

Lemma getMetadata_run w1 : getMetadata this w1 = (Ok metadata, w1).
Proof.
  unfold getMetadata, exists_, getProvider, read, lift.
  rewrite !bind_run. cbn [mret M_ret].
  rewrite !bind_run, Hprovider. cbn [invariant mret M_ret].
  rewrite Hdeployed. cbn [holds invariant mret M_ret].
  by rewrite !ret_bind, Hmetadata.
Qed.


Lemma claim_informed :
  exists condition,
    Claiming.merkleRoot condition = cs_merkleRoot pm
    /\ Claiming.pricePerToken condition = cs_pricePerToken pm
    /\ Claiming.currency condition = cs_currency pm
    /\ Claiming.claim this tokenId quantity given w
       = (used ← Claiming.resolveProofs (cs_merkleRoot pm) from metadata proofs;
          overrides ← Claiming.settlePayment this condition quantity
                        (computedOverrides quote);
          claimWith used overrides) informed.
Proof.
  destruct (getActiveClaimCondition_run w)
    as (condition & Hrun & Hroot & Hprice & Hcoin & _).
  exists condition. repeat split; try done.
  unfold Claiming.claim. rewrite bind_run, Hrun.
  rewrite bind_run, (getCallOverrides_run this w provider chain quote)
    by assumption.
  rewrite bind_run. unfold getSignerAddress at 1.
  rewrite bind_run, Hsigner. cbn [invariant mret M_ret].
  rewrite call_run, Haddress, logged_logged.
  rewrite bind_run, getMetadata_run. by rewrite Hroot.
Qed.

(** X22: a claim under an open condition (a merkle root that starts with the
    zero address) goes with the proofs the caller gave, or the one zero
    proof.  When the condition is free the transaction carries no value;
    when it is priced in the native currency it carries the price times
    the quantity, beside the gas price from the oracle; no approval is
    sent in either case. *)
Theorem open_claim_pays_in_native_currency :
  String.prefix Claiming.AddressZero (cs_merkleRoot pm) = true ->
  (cs_pricePerToken pm <= 0 ->
   Claiming.claim this tokenId quantity given w
   = claimWith proofs (computedOverrides quote) informed)
  /\ (0 < cs_pricePerToken pm ->
      cs_currency pm = Claiming.AddressZero ->
      Claiming.claim this tokenId quantity given w
      = claimWith proofs
          {| ov_value := Some (cs_pricePerToken pm * quantity);
             ov_gasPrice := ov_gasPrice (computedOverrides quote) |}
          informed).
Proof.
  intros Hopen.
  destruct claim_informed as (condition & Hroot & Hprice & Hcoin & ->).
  unfold Claiming.resolveProofs, Claiming.settlePayment.
  rewrite Hopen, Hprice, Hcoin. cbn [negb]. split.
  - intros Hfree. rewrite ret_bind.
    destruct (Z.ltb_spec 0 (cs_pricePerToken pm)); [lia|].
    by rewrite ret_bind.
  - intros Hpriced ->.
    rewrite ret_bind.
    destruct (Z.ltb_spec 0 (cs_pricePerToken pm)); [|lia].
    by rewrite String.eqb_refl, ret_bind.
Qed.



End ClaimFacts.

(** ** The vote set-up script *)

Lemma percent75_bounds ownedAmount :
  0 <= ownedAmount ->
  0 <= percent75 ownedAmount
  /\ 100 * percent75 ownedAmount <= 75 * ownedAmount
  /\ 75 * ownedAmount < 100 * percent75 ownedAmount + 7500.
Proof.
  intros Hpositive. unfold percent75.
  rewrite Z.quot_div_nonneg by lia.
  pose proof (Z.div_mod ownedAmount 100 ltac:(lia)) as Hsplit.
  pose proof (Z.mod_pos_bound ownedAmount 100 ltac:(lia)) as Hrest.
  assert (0 <= ownedAmount / 100) by (apply Z.div_pos; lia).
  lia.
Qed.

(** X25: the script asks for a transfer only after the minter role was
    granted and the balance read, only to the vote module, and for 75
    times the hundredth of the balance rounded down: never more than
    three quarters of the balance, short of it by less than 75 units,
    and nothing for a balance under 100.  It exits with code 1 exactly
    when the grant fails, and then asks for no transfer. *)
Theorem setupVote_transfers_three_quarters_at_most
    `{Ext : Externals} `{Bind : Bindings}
    (tokenModule : SdkModule) (tokenRoles : list string)
    (voteAddress : string) (wallet : option string) (w : World) :
  let steps := (setupVote tokenModule tokenRoles voteAddress wallet w).1 in
  (forall to amount,
     In (TransferAsked to amount) steps ->
     to = voteAddress
     /\ (exists receipt,
           (grantRole tokenModule tokenRoles "minter" voteAddress w).1
           = Ok receipt)
     /\ exists ownedAmount,
          tokenBalanceOf tokenModule wallet = Ok ownedAmount
          /\ amount = (ownedAmount ÷ 100) * 75
          /\ (0 <= ownedAmount ->
              100 * amount <= 75 * ownedAmount
              /\ 75 * ownedAmount < 100 * amount + 7500)
          /\ (0 <= ownedAmount < 100 -> amount = 0))
  /\ (forall code,
        In (ProcessExit code) steps <->
        code = 1
        /\ exists e,
             (grantRole tokenModule tokenRoles "minter" voteAddress w).1
             = Throw e).
Proof.
  intros steps. unfold steps, setupVote.
  destruct (grantRole tokenModule tokenRoles "minter" voteAddress w)
    as [[receipt|e] w1]; simpl.
  - split.
    + intros to amount Hin.
      destruct (tokenBalanceOf tokenModule wallet) as [ownedAmount|e];
        [destruct (tokenTransfer _ _ _)|]; simpl in Hin;
        repeat (destruct Hin as [Hin|Hin]; try discriminate Hin);
        try done.
      all: injection Hin as <- <-.
      all: split; [done|]; split; [by exists receipt|].
      all: exists ownedAmount; split; [done|]; split; [done|].
      all: split.
      all: try (intros Hpositive;
                destruct (percent75_bounds ownedAmount Hpositive)
                  as (_ & Hupper & Hlower); by split).
      all: intros Hsmall; unfold percent75;
        rewrite Z.quot_small by done; done.
    + intros code. split.
      * intros Hin.
        destruct (tokenBalanceOf tokenModule wallet) as [ownedAmount|e];
          [destruct (tokenTransfer _ _ _)|]; simpl in Hin;
          repeat (destruct Hin as [Hin|Hin]; try discriminate Hin); done.
      * by intros [_ [e He]].
  - split.
    + intros to amount Hin.
      repeat (destruct Hin as [Hin|Hin]; try discriminate Hin). done.
    + intros code. split.
      * intros [Hin|[Hin|[]]]; [discriminate|].
        injection Hin as <-. split; [done|by exists e].
      * intros [-> _]. right. by left.
Qed.

(** ** Signers and providers of a module *)

Section ConnectionFacts.
Context `{Ext : Externals} `{Bind : Bindings}.
Variable this : Connected.

(** X26: a bare provider handed to a module that has a signer is stored but
    not used: the signer stays, and the contract is connected again
    through the signer, not through the new provider. *)
Theorem provider_does_not_displace_signer (signer : Signer) (provider : Provider) :
  getSigner (fields this) = Some signer ->
  exists after,
    setProviderOrSigner this (AProvider provider) = Ok after
    /\ _providerOrSigner after = Some (AProvider provider)
    /\ getSigner (fields after) = Some signer
    /\ providerOrSigner after = Ok (ASigner signer)
    /\ contract (fields after)
       = connectAt (address (fields this)) (ASigner signer).
Proof.
  intros Hsigner. unfold getSigner in Hsigner.
  destruct (_signer (fields this)) as [held|] eqn:Hheld; [|discriminate].
  destruct (_isSigner held) eqn:Hvalid; [|discriminate].
  injection Hsigner as ->.
  unfold setProviderOrSigner, providerOrSigner. simpl. rewrite Hheld.
  eexists. split; [reflexivity|]. simpl.
  unfold getSigner. simpl. by rewrite Hheld, Hvalid.
Qed.

(** X27: clearSigner takes the signing identity away but not the connection:
    after a signer was set and cleared, getSigner is null, so a gasless
    call is refused with an InvariantError, while the providerOrSigner
    getter still yields that signer and the contract is still the one
    connected through it. *)
Theorem cleared_signer_stays_connected
    (signer : Signer) (target : BaseContract) (fn : string) (args : list Arg)
    (callOverrides : CallOverrides) (w : World) :
  _isSigner signer = true ->
  exists set,
    setProviderOrSigner this (ASigner signer) = Ok set
    /\ getSigner (fields set) = Some signer
    /\ let cleared := clearSigner set in
       getSigner (fields cleared) = None
       /\ providerOrSigner cleared = Ok (ASigner signer)
       /\ contract (fields cleared)
          = connectAt (address (fields this)) (ASigner signer)
       /\ sendGaslessTransaction (fields cleared) target fn args callOverrides w
          = (Throw (InvariantError
                      "Cannot execute gasless transaction without valid signer"),
             w).
Proof.
  intros Hvalid.
  unfold setProviderOrSigner, providerOrSigner, isSigner. rewrite Hvalid. simpl.
  eexists. split; [reflexivity|]. simpl.
  unfold getSigner. simpl. rewrite Hvalid.
  by repeat split.
Qed.

End ConnectionFacts.

(** ** The further theorems at the concrete deployment *)

Lemma standard_path_never_relays_witness :
  emits (fun ev => ~ relayCall ev)
        (sendContractTransaction (Ext := Demo.externals 27) Deployed.drop
           (Demo.token false 60000) "approve" Demo.approveArgs None)
  /\ keepsNonces
       (sendContractTransaction (Ext := Demo.externals 27) Deployed.drop
          (Demo.token false 60000) "approve" Demo.approveArgs None).
Proof.
  exact (@standard_path_never_relays (Demo.externals 27) Deployed.drop
           (Demo.token false 60000) "approve" Demo.approveArgs None eq_refl).
Defined.

Lemma gasless_receipt_origin_witness :
  let run := sendGaslessTransaction (Ext := Demo.externals 27) Demo.dao
               (Demo.token true 60000) "approve" Demo.approveArgs
               no_overrides Demo.start in
  exists provider message signature txHash,
    ct_provider (readOnlyContract Demo.dao) = Some provider
    /\ relayed (since Demo.start run.2) = [(message, signature)]
    /\ transactionRelayerSendFunction (options Demo.dao) message signature
       = Ok txHash
    /\ waitForTransaction provider txHash = Ok (Demo.receiptOf "0xabc")
    /\ last (since Demo.start run.2) = Some (EvWaitForTransaction txHash).
Proof.
  exact (@gasless_receipt_origin (Demo.externals 27) Demo.dao
           (Demo.token true 60000) "approve" Demo.approveArgs no_overrides
           Demo.start (Demo.receiptOf "0xabc") eq_refl).
Defined.

Lemma early_rejection_takes_no_nonce_witness :
  sendGaslessTransaction (Ext := Demo.externals 27) Demo.dao
    Deployed.unestimable "transfer" Demo.approveArgs no_overrides Demo.start
  = (Throw (Rejected "interface" "no matching function"),
     logged Demo.start [EvGetNetwork; EvGetAddress])
  /\ (let run := sendGaslessTransaction (Ext := Demo.externals 27) Demo.dao
                   Deployed.unestimable "approve" Demo.approveArgs
                   no_overrides Demo.start in
      run = (Throw (Rejected "call" "execution reverted"),
             logged Demo.start
               [EvGetNetwork; EvGetAddress;
                EvEstimateGas Demo.tokenAddress "approve" Demo.approveArgs])
      /\ _nonces run.2 = _nonces Demo.start
      /\ signings (since Demo.start run.2) = []
      /\ relayed (since Demo.start run.2) = []).
Proof.
  split.
  - exact (proj1
             (@early_rejection_takes_no_nonce (Demo.externals 27) Demo.dao
                Deployed.unestimable "transfer" Demo.approveArgs no_overrides
                Demo.start (Demo.signerWith None) Demo.provider 137
                Demo.walletAddress eq_refl eq_refl eq_refl eq_refl)
             _ eq_refl).
  - exact (proj2
             (@early_rejection_takes_no_nonce (Demo.externals 27) Demo.dao
                Deployed.unestimable "approve" Demo.approveArgs no_overrides
                Demo.start (Demo.signerWith None) Demo.provider 137
                Demo.walletAddress eq_refl eq_refl eq_refl eq_refl)
             _ _ eq_refl eq_refl).
Defined.

Lemma refused_signature_dispatches_nothing_witness :
  let run := sendGaslessTransaction (Ext := Demo.externals 27)
               (Demo.moduleWith Demo.relayUrl (Some Deployed.refusing))
               (Demo.token false 60000) "approve" Demo.approveArgs
               no_overrides Demo.start in
  run.1 = Throw (Rejected "signer" "user rejected signing")
  /\ relayed (since Demo.start run.2) = []
  /\ signings (since Demo.start run.2)
     = [EvSignTypedData Demo.domain Demo.types (Demo.request "120000" "7")]
  /\ last (since Demo.start run.2)
     = Some (EvSignTypedData Demo.domain Demo.types (Demo.request "120000" "7")).
Proof.
  exact (@refused_signature_dispatches_nothing (Demo.externals 27)
           (Demo.moduleWith Demo.relayUrl (Some Deployed.refusing))
           (Demo.token false 60000) "approve" Demo.approveArgs no_overrides
           Demo.start Deployed.refusing Demo.provider 137 Demo.walletAddress
           "0xcall:approve" 60000 7
           eq_refl eq_refl eq_refl eq_refl eq_refl eq_refl eq_refl
           _ eq_refl).
Defined.

Lemma refused_dispatch_is_not_awaited_witness :
  let run := sendGaslessTransaction (Ext := Demo.externals 27)
               Deployed.closedRelay (Demo.token false 60000) "approve"
               Demo.approveArgs no_overrides Demo.start in
  run.1 = Throw (Rejected "relay" "over quota")
  /\ last (since Demo.start run.2)
     = Some (EvRelaySend (Demo.request "120000" "7") "0xnative").
Proof.
  exact (@refused_dispatch_is_not_awaited (Demo.externals 27)
           Deployed.closedRelay (Demo.token false 60000) "approve"
           Demo.approveArgs no_overrides Demo.start (Demo.signerWith None)
           Demo.provider 137 Demo.walletAddress "0xcall:approve" 60000 7
           eq_refl eq_refl eq_refl eq_refl eq_refl eq_refl eq_refl
           (Demo.request "120000" "7") "0xnative" _ eq_refl eq_refl).
Defined.

Lemma dispatched_request_fields_witness :
  forwardRequests
    (since Demo.start
       (sendGaslessTransaction (Ext := Demo.externals 27) Demo.dao
          (Demo.token false 60000) "transfer" Demo.approveArgs
          {| ov_value := Some 5; ov_gasPrice := Some 30000000000 |}
          Demo.start).2)
  = [{| fr_from := Demo.walletAddress;
        fr_to := Demo.dropAddress;
        fr_value := "5";
        fr_gas := "120000";
        fr_nonce := "7";
        fr_data := "0xcall:transfer" |}].
Proof.
  exact (@dispatched_request_fields (Demo.externals 27) Demo.dao
           (Demo.token false 60000) "transfer" Demo.approveArgs
           {| ov_value := Some 5; ov_gasPrice := Some 30000000000 |}
           Demo.start (Demo.signerWith None) Demo.provider 137
           Demo.walletAddress "0xcall:transfer" 60000 7
           eq_refl eq_refl eq_refl eq_refl eq_refl eq_refl eq_refl
           "0xnative" eq_refl eq_refl).
Defined.

Lemma relayed_call_without_overrides_forwards_no_value_witness :
  let w' := (sendContractTransaction (Ext := Demo.externals 27) Demo.dao
               (Demo.token false 60000) "approve" Demo.approveArgs None
               Demo.start).2 in
  fr_value <$> forwardRequests (since Demo.start w') = ["0"]
  /\ List.filter (fun ev => match ev with EvGetNetwork => true | _ => false end)
       (since Demo.start w') = [EvGetNetwork; EvGetNetwork].
Proof.
  exact (@relayed_call_without_overrides_forwards_no_value
           (Demo.externals 27) Demo.dao (Demo.token false 60000) "approve"
           Demo.approveArgs Demo.start (Demo.signerWith None) Demo.provider
           (Some 30) 137 Demo.walletAddress "0xcall:approve" 60000 7
           eq_refl eq_refl eq_refl eq_refl eq_refl eq_refl eq_refl eq_refl
           eq_refl "0xnative" eq_refl eq_refl).
Defined.

Lemma forwardedGas_bounds_witness : forwardedGas 25000 < forwardedGas 24999.
Proof.
  apply (proj2 (proj2 (forwardedGas_bounds 24999))); lia.
Defined.

Lemma packed_signature_length_witness :
  String.length (packed (Demo.permitOf 27 Demo.walletAddress Demo.dropAddress))
  = 132%nat
  /\ String.length (packed (Demo.permitOf 1 Demo.walletAddress Demo.dropAddress))
     = 131%nat.
Proof.
  split.
  - apply (proj1 (packed_signature_length
                    (Demo.permitOf 27 Demo.walletAddress Demo.dropAddress)
                    eq_refl eq_refl)).
    simpl. lia.
  - apply (proj2 (packed_signature_length
                    (Demo.permitOf 1 Demo.walletAddress Demo.dropAddress)
                    eq_refl eq_refl)).
    simpl. lia.
Defined.

Lemma parseEventLogs_first_decodable_witness :
  parseEventLogs (Bind := Deployed.bindings) Deployed.drop "LazyMintedTokens"
    (Some [Deployed.transferred; Deployed.minted])
  = Some [ArgNumber 3; ArgNumber 5; ArgBytes "ipfs://base/"]
  /\ parseEventLogs (Bind := Deployed.bindings) Deployed.drop "Burned"
       (Some [Deployed.transferred; Deployed.minted]) = None.
Proof.
  split.
  - apply (proj1 (@parseEventLogs_first_decodable Deployed.bindings
                    Deployed.drop "LazyMintedTokens"
                    (Some [Deployed.transferred; Deployed.minted]))).
    exists [Deployed.transferred], Deployed.minted, [].
    split; [reflexivity|]. split; [|reflexivity].
    constructor; [|constructor]. eexists. reflexivity.
  - apply (proj2 (@parseEventLogs_first_decodable Deployed.bindings
                    Deployed.drop "Burned"
                    (Some [Deployed.transferred; Deployed.minted]))).
    right. exists [Deployed.transferred; Deployed.minted].
    split; [reflexivity|].
    repeat constructor; eexists; reflexivity.
Defined.

Lemma tokenIdsFrom_range_witness :
  tokenIdsFrom 3 5 = ["3"; "4"; "5"]
  /\ length (tokenIdsFrom 3 5) = 3%nat
  /\ tokenIdsFrom 5 3 = [].
Proof.
  destruct (tokenIdsFrom_range 3 5) as (Hids & Hlength & _ & _).
  destruct (tokenIdsFrom_range 5 3) as (_ & _ & _ & Hempty).
  split; [exact Hids|]. split; [exact Hlength|]. apply Hempty. lia.
Defined.

Lemma createBatch_reads_ids_off_the_receipt_witness :
  BundleDrop.createBatch (Ext := Demo.externals 27) (Bind := Deployed.bindings)
    Deployed.drop ["first"; "second"] Demo.start
  = (Ok ["3"; "4"; "5"],
     logged Demo.start
       [EvGetNetwork; EvGasPriceOracle 137 "fastest" 100;
        EvContractSend Demo.dropAddress "lazyMint"
          [ArgNumber 2; ArgBytes "ipfs://base/"]
          {| ov_value := None; ov_gasPrice := Some 30000000000 |};
        EvTxWait "0xdirect"])
  /\ BundleDrop.createBatch (Ext := Demo.externals 27)
       (Bind := Deployed.bindings) Deployed.quiet ["first"; "second"] Demo.start
     = (Throw (Rejected "TypeError" "event is not iterable"),
        logged Demo.start
          [EvGetNetwork; EvGasPriceOracle 137 "fastest" 100;
           EvContractSend Demo.dropAddress "lazyMint"
             [ArgNumber 2; ArgBytes "ipfs://base/"]
             {| ov_value := None; ov_gasPrice := Some 30000000000 |};
           EvTxWait "0xquiet"]).
Proof.
  split.
  - exact (proj1
             (@createBatch_reads_ids_off_the_receipt (Demo.externals 27)
                Deployed.bindings Deployed.drop Demo.start
                ["first"; "second"] 3 "ipfs://base/"
                (Demo.receiptOf "0xdirect") _
                eq_refl eq_refl eq_refl eq_refl)
             3 5 _ eq_refl).
  - exact (proj2
             (@createBatch_reads_ids_off_the_receipt (Demo.externals 27)
                Deployed.bindings Deployed.quiet Demo.start
                ["first"; "second"] 3 "ipfs://base/"
                (Demo.receiptOf "0xquiet") _
                eq_refl eq_refl eq_refl eq_refl)
             eq_refl).
Defined.

Lemma getAll_lists_every_minted_id_witness :
  BundleDrop.getAll (Bind := Deployed.bindings) Deployed.drop Demo.start
  = (Ok [ Deployed.entry 10 "token 0";
          Deployed.entry 0 "token 1";
          Deployed.entry 10 "token 2" ],
     Demo.start).
Proof.
  assert (Hfits : 0 <= 3 < 2 ^ 32) by lia.
  exact (@getAll_lists_every_minted_id Deployed.bindings Deployed.drop
           Demo.start 3 (fun i => "token " +:+ pretty (Z.of_nat i))
           eq_refl Hfits (fun i _ => eq_refl)).
Defined.

Lemma ownedBalances_are_the_positive_ones_witness :
  (2%nat, 7) ∈ BundleDrop.ownedBalances [0; 4; 7]
  /\ StronglySorted lt (BundleDrop.ownedBalances [0; 4; 7]).*1.
Proof.
  destruct (ownedBalances_are_the_positive_ones [0; 4; 7]) as [Hin Hsorted].
  split; [|exact Hsorted].
  apply Hin. split; [reflexivity|lia].
Defined.


Lemma transfer_and_burn_act_for_the_signer_witness :
  BundleDrop.transfer (Ext := Demo.externals 27) Deployed.drop
    Demo.tokenAddress 2 1 None Demo.start
  = (Ok (Demo.receiptOf "0xdirect"),
     logged Demo.start
       [EvGetAddress; EvGetNetwork; EvGasPriceOracle 137 "fastest" 100;
        EvContractSend Demo.dropAddress "safeTransferFrom"
          [ArgAddress Demo.walletAddress; ArgAddress Demo.tokenAddress;
           ArgNumber 2; ArgNumber 1; ArgBytes "0x00"]
          {| ov_value := None; ov_gasPrice := Some 30000000000 |};
        EvTxWait "0xdirect"])
  /\ BundleDrop.burn (Ext := Demo.externals 27) Deployed.unsigned 2 1 Demo.start
     = (Throw (InvariantError "Cannot get signer address without valid signer"),
        Demo.start).
Proof.
  split.
  - exact (proj1
             (proj1
                (@transfer_and_burn_act_for_the_signer (Demo.externals 27)
                   Deployed.drop Demo.start Demo.tokenAddress 2 1 None)
                (Demo.signerWith None) Demo.walletAddress eq_refl eq_refl)).
  - exact (proj2
             (proj2
                (@transfer_and_burn_act_for_the_signer (Demo.externals 27)
                   Deployed.unsigned Demo.start Demo.tokenAddress 2 1 None)
                eq_refl)).
Defined.

Lemma unsupported_role_is_refused_first_witness :
  grantRole (Ext := Demo.externals 27) (Bind := Deployed.bindings)
    Deployed.drop Deployed.roles "pauser" Demo.walletAddress Demo.start
  = (Throw (InvariantError
              ("this module does not support the " +:+ dquote +:+ "pauser"
                 +:+ dquote +:+ " role")),
     Demo.start).
Proof.
  assert (Hrole : "pauser" ∉ Deployed.roles).
  { apply (bool_decide_unpack _). vm_compute. exact I. }
  exact (proj1
           (@unsupported_role_is_refused_first (Demo.externals 27)
              Deployed.bindings Deployed.drop Deployed.roles Demo.start
              "pauser" Demo.walletAddress Hrole)).
Defined.

Lemma revokeRole_renounces_for_the_signer_witness :
  revokeRole (Ext := Demo.externals 27) (Bind := Deployed.bindings)
    Deployed.drop Deployed.roles "minter"
    "0xa892bb45b97e8d10f7bca63da1cb29f59795c9b9" Demo.start
  = (Ok (Demo.receiptOf "0xdirect"),
     logged Demo.start
       [EvGetAddress; EvGetNetwork; EvGasPriceOracle 137 "fastest" 100;
        EvContractSend Demo.dropAddress "renounceRole"
          [ArgBytes "role:minter";
           ArgAddress "0xa892bb45b97e8d10f7bca63da1cb29f59795c9b9"]
          {| ov_value := None; ov_gasPrice := Some 30000000000 |};
        EvTxWait "0xdirect"])
  /\ revokeRole (Ext := Demo.externals 27) (Bind := Deployed.bindings)
       Deployed.drop Deployed.roles "minter" Demo.dropAddress Demo.start
     = (Ok (Demo.receiptOf "0xdirect"),
        logged Demo.start
          [EvGetAddress; EvGetNetwork; EvGasPriceOracle 137 "fastest" 100;
           EvContractSend Demo.dropAddress "revokeRole"
             [ArgBytes "role:minter"; ArgAddress Demo.dropAddress]
             {| ov_value := None; ov_gasPrice := Some 30000000000 |};
           EvTxWait "0xdirect"]).
Proof.
  assert (Hrole : "minter" ∈ Deployed.roles).
  { apply (bool_decide_unpack _). vm_compute. exact I. }
  assert (Hother : toLowerCase Demo.walletAddress <> toLowerCase Demo.dropAddress).
  { vm_compute. discriminate. }
  split.
  - exact (proj1
             (@revokeRole_renounces_for_the_signer (Demo.externals 27)
                Deployed.bindings Deployed.drop Deployed.roles Demo.start
                "minter" "0xa892bb45b97e8d10f7bca63da1cb29f59795c9b9"
                (Demo.signerWith None) Demo.walletAddress
                Hrole eq_refl eq_refl)
             eq_refl).
  - exact (proj2
             (@revokeRole_renounces_for_the_signer (Demo.externals 27)
                Deployed.bindings Deployed.drop Deployed.roles Demo.start
                "minter" Demo.dropAddress
                (Demo.signerWith None) Demo.walletAddress
                Hrole eq_refl eq_refl)
             Hother).
Defined.

Lemma getAllRoleMembers_has_every_role_witness :
  exists result,
    getAllRoleMembers (Bind := Deployed.bindings) Deployed.drop Deployed.roles
      Demo.start = (Ok result, Demo.start)
    /\ result !! "minter" = Some [Demo.walletAddress; Demo.dropAddress]
    /\ result !! "transfer" = Some []
    /\ result !! "pauser" = None.
Proof.
  assert (Hlisted : forall role, role ∈ Deployed.roles ->
            role = "admin" \/ role = "minter" \/ role = "transfer").
  { intros role Hrole. unfold Deployed.roles in Hrole.
    repeat (apply elem_of_cons in Hrole as [Hrole|Hrole]; [by auto|]).
    by apply elem_of_nil in Hrole. }
  assert (Hcount : forall role, role ∈ Deployed.roles ->
            getRoleMemberCount (Bindings := Deployed.bindings)
              (contract Deployed.drop)
              (getRoleHash (Bindings := Deployed.bindings) role)
            = Ok (Z.of_nat (length (Deployed.membersOf role)))).
  { intros role [->|[->| ->]]%Hlisted; reflexivity. }
  assert (Hsize : forall role, role ∈ Deployed.roles ->
            Z.of_nat (length (Deployed.membersOf role)) < 2 ^ 32).
  { intros role [->|[->| ->]]%Hlisted; vm_compute; reflexivity. }
  assert (Hmember : forall role i member, role ∈ Deployed.roles ->
            Deployed.membersOf role !! i = Some member ->
            getRoleMember (Bindings := Deployed.bindings)
              (contract Deployed.drop)
              (getRoleHash (Bindings := Deployed.bindings) role) (Z.of_nat i)
            = Ok member).
  { intros role i member [->|[->| ->]]%Hlisted Hi;
      destruct i as [|[|i]]; try discriminate Hi;
      injection Hi as <-; reflexivity. }
  assert (Hroles : Deployed.roles <> []) by discriminate.
  destruct (proj1
              (@getAllRoleMembers_has_every_role Deployed.bindings
                 Deployed.drop Deployed.roles Demo.start Deployed.membersOf
                 Hcount Hsize Hmember)
              Hroles)
    as (result & Hrun & Hlookup).
  exists result. split; [exact Hrun|].
  split; [exact (Hlookup "minter")|].
  split; [exact (Hlookup "transfer")|exact (Hlookup "pauser")].
Defined.

Lemma metadata_needs_a_deployed_contract_witness :
  getMetadata (Bind := Deployed.bindings) Deployed.offline Demo.start
  = (Throw (InvariantError "exists() -- No Provider"), Demo.start)
  /\ setMetadata (Ext := Demo.externals 27) (Bind := Deployed.bindings)
       Deployed.elsewhere "ipfs://new" Demo.start
     = (Throw (InvariantError "contract does not exist"), Demo.start).
Proof.
  split.
  - exact (proj1
             (proj1
                (@metadata_needs_a_deployed_contract (Demo.externals 27)
                   Deployed.bindings Deployed.offline "ipfs://new" Demo.start)
                eq_refl)).
  - exact (proj2
             (proj2
                (@metadata_needs_a_deployed_contract (Demo.externals 27)
                   Deployed.bindings Deployed.elsewhere "ipfs://new" Demo.start)
                Demo.provider eq_refl eq_refl)).
Defined.

Lemma open_claim_pays_in_native_currency_witness :
  Claiming.claim (Ext := Demo.externals 27) (Bind := Deployed.bindings)
    Deployed.drop 0 2 None Demo.start
  = (Ok tt,
     logged Demo.start
       [EvGetNetwork; EvGasPriceOracle 137 "fastest" 100; EvGetAddress;
        EvContractSend Demo.dropAddress "claim"
          [ArgNumber 0; ArgNumber 2; ArgList [Claiming.zeroBytes32]]
          {| ov_value := None; ov_gasPrice := Some 30000000000 |};
        EvTxWait "0xdirect"])
  /\ Claiming.claim (Ext := Demo.externals 27) (Bind := Deployed.bindings)
       Deployed.drop 1 2 None Demo.start
     = (Ok tt,
        logged Demo.start
          [EvGetNetwork; EvGasPriceOracle 137 "fastest" 100; EvGetAddress;
           EvContractSend Demo.dropAddress "claim"
             [ArgNumber 1; ArgNumber 2; ArgList [Claiming.zeroBytes32]]
             {| ov_value := Some 4; ov_gasPrice := Some 30000000000 |};
           EvTxWait "0xdirect"]).
Proof.
  assert (Hfree : cs_pricePerToken (Deployed.conditionOf 0) <= 0)
    by (simpl; lia).
  assert (Hpriced : 0 < cs_pricePerToken (Deployed.conditionOf 1))
    by (simpl; lia).
  split.
  - exact (proj1
             (@open_claim_pays_in_native_currency (Demo.externals 27)
                Deployed.bindings Deployed.drop Demo.start 0 2 None 0
                (Deployed.conditionOf 0) Claiming.AddressZero Demo.provider 137
                (Some 30) (Demo.signerWith None) Demo.walletAddress
                (Some Deployed.deployedMetadata)
                eq_refl eq_refl eq_refl eq_refl eq_refl eq_refl eq_refl
                eq_refl eq_refl eq_refl eq_refl eq_refl)
             Hfree).
  - exact (proj2
             (@open_claim_pays_in_native_currency (Demo.externals 27)
                Deployed.bindings Deployed.drop Demo.start 1 2 None 0
                (Deployed.conditionOf 1) Claiming.AddressZero Demo.provider 137
                (Some 30) (Demo.signerWith None) Demo.walletAddress
                (Some Deployed.deployedMetadata)
                eq_refl eq_refl eq_refl eq_refl eq_refl eq_refl eq_refl
                eq_refl eq_refl eq_refl eq_refl eq_refl)
             Hpriced eq_refl).
Defined.



Lemma setupVote_transfers_three_quarters_at_most_witness :
  In (TransferAsked Demo.tokenAddress 750000)
     (setupVote (Ext := Demo.externals 27) (Bind := Deployed.bindings)
        Deployed.drop Deployed.roles Demo.tokenAddress
        (Some Demo.walletAddress) Demo.start).1
  /\ 100 * 750000 <= 75 * 1000050 < 100 * 750000 + 7500
  /\ ~ In (ProcessExit 1)
         (setupVote (Ext := Demo.externals 27) (Bind := Deployed.bindings)
            Deployed.drop Deployed.roles Demo.tokenAddress
            (Some Demo.walletAddress) Demo.start).1.
Proof.
  assert (Hasked :
            In (TransferAsked Demo.tokenAddress 750000)
               (setupVote (Ext := Demo.externals 27) (Bind := Deployed.bindings)
                  Deployed.drop Deployed.roles Demo.tokenAddress
                  (Some Demo.walletAddress) Demo.start).1).
  { right. left. reflexivity. }
  destruct (@setupVote_transfers_three_quarters_at_most (Demo.externals 27)
              Deployed.bindings Deployed.drop Deployed.roles Demo.tokenAddress
              (Some Demo.walletAddress) Demo.start)
    as [Htransfer Hexit].
  split; [exact Hasked|]. split.
  - destruct (Htransfer _ _ Hasked)
      as (_ & _ & ownedAmount & Hbalance & _ & Hbounds & _).
    injection Hbalance as <-. apply Hbounds. lia.
  - intros [_ [e He]]%Hexit. discriminate He.
Defined.

Lemma provider_does_not_displace_signer_witness :
  exists after,
    setProviderOrSigner (Bind := Deployed.bindings) Deployed.handle
      (AProvider Demo.provider) = Ok after
    /\ _providerOrSigner after = Some (AProvider Demo.provider)
    /\ getSigner (fields after) = Some (Demo.signerWith None)
    /\ providerOrSigner after = Ok (ASigner (Demo.signerWith None)).
Proof.
  destruct (@provider_does_not_displace_signer Deployed.bindings
              Deployed.handle (Demo.signerWith None) Demo.provider eq_refl)
    as (after & Hset & Hstored & Hsigner & Hthrough & _).
  exists after. repeat split; assumption.
Defined.

Lemma cleared_signer_stays_connected_witness :
  exists set,
    setProviderOrSigner (Bind := Deployed.bindings) Deployed.handle
      (ASigner Deployed.refusing) = Ok set
    /\ getSigner (fields (clearSigner set)) = None
    /\ providerOrSigner (clearSigner set) = Ok (ASigner Deployed.refusing)
    /\ sendGaslessTransaction (Ext := Demo.externals 27)
         (fields (clearSigner set)) (Demo.token false 60000) "approve"
         Demo.approveArgs no_overrides Demo.start
       = (Throw (InvariantError
                   "Cannot execute gasless transaction without valid signer"),
          Demo.start).
Proof.
  destruct (@cleared_signer_stays_connected (Demo.externals 27)
              Deployed.bindings Deployed.handle Deployed.refusing
              (Demo.token false 60000) "approve" Demo.approveArgs no_overrides
              Demo.start eq_refl)
    as (set & Hset & _ & Hnone & Hthrough & _ & Hrefused).
  exists set. repeat split; assumption.
Defined.
